(** * The routing agent of agent_graph.py

    A shallow embedding of [MistralAgent] (src/agent_graph.py): the router,
    the three responders, the final printer, the graph that sequences them
    and the [run] entry point, followed by the properties of the
    specification that concern them.

    Modelling choices.
    - Text is a sequence of code points below 256 (Stdlib's [string]); on
      that range [str.lower], the [in] operator, [\s] and [re.IGNORECASE]
      act one character at a time and are written out below.
    - The request state is the Python [dict] the nodes pass along, a
      [gmap string string]; [state.get(k, d)] and [state[k] = v] are the
      map's lookup and insert.
    - Effects are explicit: a computation yields the events it performed
      (log records, printed lines, calls of the text-generation backend)
      and either a value or the [Exception] it raised.
    - The backend ([self.llm.invoke]) and the graph runtime (LangGraph) are
      outside the repository.  The backend is an arbitrary function from
      the prompt to a reply or a raised [Exception]; the runtime is a small
      interpreter of the nodes and edges [_build_graph] registers.
    - [except Exception] handlers see instances of [Exception]; interrupts
      and interpreter exits are not exceptions of the model. *)

From Stdlib Require Import String Ascii NArith List Bool Lia DecimalString.
From stdpp Require Import base option gmap strings list.


(** ** Text *)

Module Text.

(** [str.lower] on one code point below 256: the ASCII capitals and the
    capitals U+00C0..U+00DE (U+00D7, the multiplication sign, apart) move
    up by 32. *)
Definition lower_char (c : ascii) : ascii :=
  let n := N_of_ascii c in
  if ((65 <=? n) && (n <=? 90) ||
      (192 <=? n) && (n <=? 222) && negb (n =? 215))%N
  then ascii_of_N (n + 32) else c.

(** [s.lower()] *)
Fixpoint lower (s : string) : string :=
  match s with
  | EmptyString => EmptyString
  | String c s' => String (lower_char c) (lower s')
  end.

(** [str.isspace] on one code point below 256, which is also the class
    [\s] of a [str] pattern. *)
Definition isspace (c : ascii) : bool :=
  let n := N_of_ascii c in
  ((9 <=? n) && (n <=? 13) || (28 <=? n) && (n <=? 32) ||
   (n =? 133) || (n =? 160))%N.

(** [s.startswith(p)] *)
Fixpoint startswith (p s : string) : bool :=
  match p, s with
  | EmptyString, _ => true
  | String a p', String b s' => Ascii.eqb a b && startswith p' s'
  | String _ _, EmptyString => false
  end.

(** [p in s]: [p] starts at some position of [s]. *)
Fixpoint str_in (p s : string) : bool :=
  startswith p s ||
  match s with
  | EmptyString => false
  | String _ s' => str_in p s'
  end.

(** [c * n] for a one-character string. *)
Fixpoint repeat_char (c : ascii) (n : nat) : string :=
  match n with
  | O => EmptyString
  | S n' => String c (repeat_char c n')
  end.

Definition nl : string := String "010"%char EmptyString.

(** The mathematical reading of [p in s]. *)
Definition occurs_in (p s : string) : Prop :=
  exists a b, s = a +:+ p +:+ b.

End Text.
Import Text.

(** ** The fragment of [re] the summarizer uses *)

Module Re.

(** What matches one character. *)
Inductive atom :=
| Lit (c : ascii)      (* a literal character *)
| Space.               (* the class [\s]      *)

(** One pattern item: [x], [x?] or [x*], both quantifiers greedy. *)
Inductive item :=
| One (a : atom)
| Optional (a : atom)
| Many (a : atom).

(** Under [re.IGNORECASE] a literal matches the characters that lower-case
    to its own lower-case form. *)
Definition atom_matches (ignorecase : bool) (a : atom) (c : ascii) : bool :=
  match a with
  | Lit l =>
      if ignorecase then Ascii.eqb (lower_char c) (lower_char l)
      else Ascii.eqb c l
  | Space => isspace c
  end.

(** The backtracking matcher at one position: the text left after the
    first match in priority order, [None] when there is none. *)
Fixpoint match_here (ic : bool) (p : list item) (s : string) : option string :=
  match p with
  | [] => Some s
  | One a :: p' =>
      match s with
      | String c s' => if atom_matches ic a c then match_here ic p' s' else None
      | EmptyString => None
      end
  | Optional a :: p' =>
      let taken :=
        match s with
        | String c s' => if atom_matches ic a c then match_here ic p' s' else None
        | EmptyString => None
        end in
      match taken with
      | Some r => Some r
      | None => match_here ic p' s
      end
  | Many a :: p' =>
      (fix many (s : string) : option string :=
         match s with
         | String c s' =>
             if atom_matches ic a c then
               match many s' with
               | Some r => Some r
               | None => match_here ic p' s
               end
             else match_here ic p' s
         | EmptyString => match_here ic p' s
         end) s
  end.

(** [re.sub('^' + p, repl, s)] without [re.MULTILINE]: the anchor holds at
    position 0 only, so at most one match is replaced. *)
Definition sub_anchored (ic : bool) (p : list item) (repl s : string) : string :=
  match match_here ic p s with
  | Some rest => repl +:+ rest
  | None => s
  end.

(** The items of a literal word. *)
Fixpoint word (w : string) : list item :=
  match w with
  | EmptyString => []
  | String c w' => One (Lit c) :: word w'
  end.

End Re.

(** ** Effects *)

Inductive level := INFO | ERROR.

Inductive event :=
| Log (lv : level) (msg : string)     (* logger.info / logger.error *)
| Print (line : string)               (* print(line)                *)
| Invoke (prompt : string).           (* self.llm.invoke(prompt)    *)

(** An instance of [Exception]; [str e] is [str(e)]. *)
Record Exception := mkException { str : string }.

(** A computation: the events performed, then the exception raised or the
    value returned. *)
Definition M (A : Type) : Type := list event * (Exception + A).

Definition events {A} (m : M A) : list event := m.1.
Definition outcome {A} (m : M A) : Exception + A := m.2.

#[global] Instance M_ret : MRet M := fun A a => ([], inr a).

#[global] Instance M_bind : MBind M := fun A B f m =>
  match m.2 with
  | inl e => (m.1, inl e)
  | inr a => let r := f a in (m.1 ++ r.1, r.2)
  end.

Definition raise {A} (e : Exception) : M A := ([], inl e).

Definition emit (ev : event) : M unit := ([ev], inr tt).

(** [try: body  except Exception as e: handler e] *)
Definition try_except {A} (body : M A) (handler : Exception -> M A) : M A :=
  match body.2 with
  | inl e => let r := handler e in (body.1 ++ r.1, r.2)
  | inr a => body
  end.

Definition logger_info (msg : string) : M unit := emit (Log INFO msg).
Definition logger_error (msg : string) : M unit := emit (Log ERROR msg).
Definition print (line : string) : M unit := emit (Print line).

(** The text-generation backend: a reply, or the exception it raises. *)
Definition LLM : Type := string -> Exception + string.

Definition llm_invoke (llm : LLM) (prompt : string) : M string :=
  ([Invoke prompt], llm prompt).

(** ** The request state *)

Abbreviation dict := (gmap string string).

(** [state.get(k, d)] *)
Definition get (state : dict) (k d : string) : string := default d (state !! k).

(** [state[k]], which raises [KeyError] on a missing key. *)
Definition getitem (state : dict) (k : string) : M string :=
  match state !! k with
  | Some v => mret v
  | None => raise (mkException ("'" +:+ k +:+ "'"))
  end.

(** Truth value of [state.get(k)]: a missing key gives [None], and [None]
    and the empty string are false. *)
Definition truthy (v : option string) : bool :=
  match v with
  | Some (String _ _) => true
  | _ => false
  end.

(** ** The graph runtime

    What [_build_graph] uses of LangGraph's [StateGraph]: named nodes, one
    entry point, fixed edges, conditional edges that map the value of a
    path function to a node, the [END] marker, and a bound on the number
    of steps of one invocation. *)

Module LangGraph.

Definition END : string := "__end__".

Definition recursion_limit : nat := 25.

Record StateGraph := {
  nodes : gmap string (dict -> M dict);
  entry_point : option string;
  edges : gmap string string;
  branches : gmap string ((dict -> string) * gmap string string)
}.

(** [StateGraph(dict)] *)
Definition new : StateGraph :=
  {| nodes := ∅; entry_point := None; edges := ∅; branches := ∅ |}.

Definition add_node (name : string) (action : dict -> M dict)
    (g : StateGraph) : StateGraph :=
  {| nodes := <[name := action]> (nodes g); entry_point := entry_point g;
     edges := edges g; branches := branches g |}.

Definition set_entry_point (name : string) (g : StateGraph) : StateGraph :=
  {| nodes := nodes g; entry_point := Some name;
     edges := edges g; branches := branches g |}.

Definition add_conditional_edges (source : string) (path : dict -> string)
    (path_map : gmap string string) (g : StateGraph) : StateGraph :=
  {| nodes := nodes g; entry_point := entry_point g; edges := edges g;
     branches := <[source := (path, path_map)]> (branches g) |}.

Definition add_edge (start_key end_key : string) (g : StateGraph) : StateGraph :=
  {| nodes := nodes g; entry_point := entry_point g;
     edges := <[start_key := end_key]> (edges g); branches := branches g |}.

(** Where the run goes after node [cur] has returned [state]. *)
Definition successor (g : StateGraph) (cur : string) (state : dict) : M string :=
  match branches g !! cur with
  | Some (path, path_map) =>
      match path_map !! path state with
      | Some target => mret target
      | None => raise (mkException ("unknown branch target: " +:+ path state))
      end
  | None =>
      match edges g !! cur with
      | Some target => mret target
      | None => raise (mkException ("node without an outgoing edge: " +:+ cur))
      end
  end.

(** One executed node: its name, the state it received and the state it
    returned. *)
Record visit := { at_node : string; before : dict; after : dict }.

(** The run from node [cur]: the nodes executed, in order, and the final
    state. *)
Fixpoint walk (g : StateGraph) (fuel : nat) (cur : string) (state : dict)
    : M (list visit * dict) :=
  if decide (cur = END) then mret ([], state)
  else
    match fuel with
    | O => raise (mkException "GraphRecursionError")
    | S fuel' =>
        match nodes g !! cur with
        | None => raise (mkException ("unknown node: " +:+ cur))
        | Some action =>
            state' ← action state;
            next ← successor g cur state';
            r ← walk g fuel' next state';
            mret ({| at_node := cur; before := state; after := state' |} :: r.1,
                  r.2)
        end
    end.

Definition start (g : StateGraph) (state : dict) : M (list visit * dict) :=
  match entry_point g with
  | Some name => walk g recursion_limit name state
  | None => raise (mkException "Graph must have an entrypoint")
  end.

(** [workflow.compile().invoke(state)] *)
Definition invoke (g : StateGraph) (state : dict) : M dict :=
  r ← start g state; mret r.2.

(** The nodes one invocation executes. *)
Definition history (g : StateGraph) (state : dict) : M (list visit) :=
  r ← start g state; mret r.1.

End LangGraph.

(** ** The agent *)

Definition math_patterns : list string :=
  ["+"; "-"; "*"; "/"; "calculate"; "solve"; "math"; "equation"].

Definition summary_keywords : list string :=
  ["summarize"; "summary"; "sum up"].

(** [any(pattern in text for pattern in patterns)] *)
Definition any_in (patterns : list string) (text : string) : bool :=
  existsb (fun pattern => str_in pattern text) patterns.

Definition router_node (state : dict) : M dict :=
  let user_input := lower (get state "input" "") in
  if any_in math_patterns user_input then
    let state := <["next" := "math"]> state in
    let state := <["processing_type" := "mathematical"]> state in
    logger_info "Router: Directing to math node";;
    mret state
  else if any_in summary_keywords user_input then
    let state := <["next" := "summarizer"]> state in
    let state := <["processing_type" := "summarization"]> state in
    logger_info "Router: Directing to summarizer node";;
    mret state
  else
    let state := <["next" := "fallback"]> state in
    let state := <["processing_type" := "general"]> state in
    logger_info "Router: Directing to fallback (final node)";;
    mret state.

Definition decide_next_node (state : dict) : string :=
  get state "next" "fallback".

Definition indent8 : string := repeat_char " " 8.
Definition indent12 : string := repeat_char " " 12.

Definition math_prompt (user_input : string) : string :=
  nl +:+
  indent8 +:+ "You are a mathematical problem solver. Solve the following problem step by step:" +:+ nl +:+
  indent8 +:+ nl +:+
  indent8 +:+ "Problem: " +:+ user_input +:+ nl +:+
  indent8 +:+ nl +:+
  indent8 +:+ "Please provide:" +:+ nl +:+
  indent8 +:+ "1. The calculation steps" +:+ nl +:+
  indent8 +:+ "2. The final answer" +:+ nl +:+
  indent8 +:+ nl +:+
  indent8 +:+ "Be precise and show your work clearly." +:+ nl +:+
  indent8.

Definition math_node (llm : LLM) (state : dict) : M dict :=
  let user_input := get state "input" "" in
  try_except
    (response ← llm_invoke llm (math_prompt user_input);
     let state := <["output" := "[MATH] Math Solution:" +:+ nl +:+ response]> state in
     logger_info "Math node: Successfully processed mathematical query";;
     mret state)
    (fun e =>
       let state :=
         <["output" := "[ERROR] Math Error: Could not solve the problem. Error: "
                       +:+ str e]> state in
       logger_error ("Math node error: " +:+ str e);;
       mret state).

(** The pattern [r'^summarize:?\s*'] after the anchor. *)
Definition summarize_prefix : list Re.item :=
  (Re.word "summarize" ++ [Re.Optional (Re.Lit ":"); Re.Many Re.Space])%list.

(** [re.sub(r'^summarize:?\s*', '', user_input, flags=re.IGNORECASE)] *)
Definition text_to_summarize (user_input : string) : string :=
  Re.sub_anchored true summarize_prefix "" user_input.

Definition summary_prompt (text : string) : string :=
  nl +:+
  indent8 +:+ "You are a text summarization expert. Create a concise and informative summary of the following text:" +:+ nl +:+
  indent8 +:+ nl +:+
  indent8 +:+ "Text to summarize: " +:+ text +:+ nl +:+
  indent8 +:+ nl +:+
  indent8 +:+ "Please provide:" +:+ nl +:+
  indent8 +:+ "1. A brief summary (2-3 sentences)" +:+ nl +:+
  indent8 +:+ "2. Key points if applicable" +:+ nl +:+
  indent8 +:+ nl +:+
  indent8 +:+ "Keep it clear and concise." +:+ nl +:+
  indent8.

Definition summarizer_node (llm : LLM) (state : dict) : M dict :=
  let user_input := get state "input" "" in
  try_except
    (response ← llm_invoke llm (summary_prompt (text_to_summarize user_input));
     let state := <["output" := "[SUMMARY] Summary:" +:+ nl +:+ response]> state in
     logger_info "Summarizer node: Successfully processed summarization request";;
     mret state)
    (fun e =>
       let state :=
         <["output" := "[ERROR] Summary Error: Could not summarize the text. Error: "
                       +:+ str e]> state in
       logger_error ("Summarizer node error: " +:+ str e);;
       mret state).

Definition general_prompt (user_input : string) : string :=
  nl +:+
  indent12 +:+ "You are a helpful assistant. Please respond to the following query:" +:+ nl +:+
  indent12 +:+ nl +:+
  indent12 +:+ "Query: " +:+ user_input +:+ nl +:+
  indent12 +:+ nl +:+
  indent12 +:+ "Provide a helpful and informative response." +:+ nl +:+
  indent12.

(** The fallback branch of [final_node]: the body of [if not
    state.get("output")]. *)
Definition fallback (llm : LLM) (state : dict) : M dict :=
  let user_input := get state "input" "" in
  try_except
    (response ← llm_invoke llm (general_prompt user_input);
     let state := <["output" := "[GENERAL] General Response:" +:+ nl +:+ response]> state in
     logger_info "Final node: Processed general query";;
     mret state)
    (fun e =>
       let state :=
         <["output" := "[ERROR] Error: Could not process your request. Error: "
                       +:+ str e]> state in
       logger_error ("Final node error: " +:+ str e);;
       mret state).

Definition rule : string := repeat_char "=" 50.

(** The block [final_node] prints. *)
Definition present (state : dict) : M unit :=
  print rule;;
  print "AGENT RESPONSE";;
  print rule;;
  output ← getitem state "output";
  print output;;
  print rule;;
  print ("Processing Type: " +:+ get state "processing_type" "Unknown");;
  print ("Route Taken: " +:+ get state "next" "Unknown");;
  print rule.

Definition final_node (llm : LLM) (state : dict) : M dict :=
  state ← (if negb (truthy (state !! "output")) then fallback llm state
           else mret state);
  present state;;
  mret state.

Definition _build_graph (llm : LLM) : LangGraph.StateGraph :=
  let workflow := LangGraph.new in
  let workflow := LangGraph.add_node "router" router_node workflow in
  let workflow := LangGraph.add_node "math" (math_node llm) workflow in
  let workflow := LangGraph.add_node "summarizer" (summarizer_node llm) workflow in
  let workflow := LangGraph.add_node "final" (final_node llm) workflow in
  let workflow := LangGraph.set_entry_point "router" workflow in
  let workflow :=
    LangGraph.add_conditional_edges "router" decide_next_node
      (<["math" := "math"]>
         (<["summarizer" := "summarizer"]> (<["fallback" := "final"]> ∅)))
      workflow in
  let workflow := LangGraph.add_edge "math" "final" workflow in
  let workflow := LangGraph.add_edge "summarizer" "final" workflow in
  let workflow := LangGraph.add_edge "final" LangGraph.END workflow in
  workflow.

(** The agent object: the backend handle and the compiled graph. *)
Record MistralAgent := {
  llm : LLM;
  graph : dict -> M dict
}.

(** [MistralAgent(model_name)], given what [Ollama(model=model_name)] did:
    a failure of the backend's constructor is logged and raised again. *)
Definition __init__ (model_name : string) (ollama : Exception + LLM) : M MistralAgent :=
  backend ← try_except
    (model ← ([], ollama);
     logger_info ("Successfully initialized " +:+ model_name +:+ " model");;
     mret model)
    (fun e =>
       logger_error ("Failed to initialize model: " +:+ str e);;
       raise e);
  mret {| llm := backend; graph := LangGraph.invoke (_build_graph backend) |}.

(** The agent over a backend whose construction succeeded. *)
Definition agent_of (backend : LLM) : MistralAgent :=
  {| llm := backend; graph := LangGraph.invoke (_build_graph backend) |}.

Definition initial_state (user_input : string) : dict :=
  <["input" := user_input]>
    (<["output" := ""]>
       (<["next" := ""]> (<["processing_type" := ""]> ∅))).

Definition error_state (user_input : string) (e : Exception) : dict :=
  <["input" := user_input]>
    (<["output" := "[ERROR] Agent Error: " +:+ str e]>
       (<["next" := "error"]> (<["processing_type" := "error"]> ∅))).

Definition run (self : MistralAgent) (user_input : string) : M dict :=
  let initial_state := initial_state user_input in
  logger_info ("Starting agent with input: " +:+ user_input);;
  try_except
    (result ← graph self initial_state;
     logger_info "Agent execution completed successfully";;
     mret result)
    (fun e =>
       logger_error ("Agent execution failed: " +:+ str e);;
       mret (error_state user_input e)).

(** ** Notions the statements use *)

(** [s] begins with [p]. *)
Definition has_prefix (p s : string) : Prop := exists t, s = p +:+ t.

(** [s.lstrip()] for the whitespace of [isspace]. *)
Fixpoint lstrip (s : string) : string :=
  match s with
  | EmptyString => EmptyString
  | String c s' => if isspace c then lstrip s' else s
  end.

(** [s] without one leading colon. *)
Definition drop_colon (s : string) : string :=
  match s with
  | String c s' => if Ascii.eqb c ":" then s' else s
  | EmptyString => s
  end.

(** The reading of the prefix removal that skips leading whitespace: the
    pattern [r'^\s*summarize:?'], compared below with [text_to_summarize]. *)
Definition text_to_summarize_skipping_blanks (user_input : string) : string :=
  Re.sub_anchored true
    (Re.Many Re.Space :: Re.word "summarize" ++ [Re.Optional (Re.Lit ":")])%list
    "" user_input.

(** The executed node changed the entry of key [k]. *)
Definition writes (k : string) (v : LangGraph.visit) : bool :=
  negb (bool_decide (LangGraph.before v !! k = LangGraph.after v !! k)).

Definition is_invoke (ev : event) : bool :=
  match ev with
  | Invoke _ => true
  | _ => false
  end.

(** How many of the events are calls of the backend. *)
Definition invocations (evs : list event) : nat :=
  length (List.filter is_invoke evs).

(** The record of one executed node. *)
Definition visited (name : string) (received returned : dict) : LangGraph.visit :=
  {| LangGraph.at_node := name; LangGraph.before := received;
     LangGraph.after := returned |}.

(** The lines [final_node] prints for a state whose output is [output]. *)
Definition printed (state : dict) (output : string) : list event :=
  [Print rule; Print "AGENT RESPONSE"; Print rule; Print output; Print rule;
   Print ("Processing Type: " +:+ get state "processing_type" "Unknown");
   Print ("Route Taken: " +:+ get state "next" "Unknown");
   Print rule].

(** The state the router returns on each of its three branches. *)
Definition routed (next processing_type : string) (state : dict) : dict :=
  <["processing_type" := processing_type]> (<["next" := next]> state).

(** The error texts of the three handlers. *)
Definition math_error (e : Exception) : string :=
  "[ERROR] Math Error: Could not solve the problem. Error: " +:+ str e.

Definition summary_error (e : Exception) : string :=
  "[ERROR] Summary Error: Could not summarize the text. Error: " +:+ str e.

Definition general_error (e : Exception) : string :=
  "[ERROR] Error: Could not process your request. Error: " +:+ str e.

(** What a responder leaves behind: one call of the backend, then one log
    record, and the received state with a non-empty output written, an
    error text when the call raised. *)
Definition responded (llm : LLM) (tag prompt : string) (state : dict)
    (m : M dict) : Prop :=
  exists lv msg output,
    m = ([Invoke prompt; Log lv msg], inr (<["output" := output]> state)) /\
    output <> "" /\
    (has_prefix tag output \/ has_prefix "[ERROR]" output) /\
    (forall e, llm prompt = inl e ->
       has_prefix "[ERROR]" output /\ occurs_in (str e) output).

(** The log records of [run]. *)
Definition started (user_input : string) : event :=
  Log INFO ("Starting agent with input: " +:+ user_input).

Definition completed : event :=
  Log INFO "Agent execution completed successfully".

Definition failed (e : Exception) : event :=
  Log ERROR ("Agent execution failed: " +:+ str e).

(** An agent whose graph sends the router back to itself, so that its
    invocation runs into the recursion limit. *)
Definition looping_agent : MistralAgent :=
  {| llm := fun _ => inr "unused";
     graph := LangGraph.invoke
                (LangGraph.add_edge "router" "router"
                   (LangGraph.set_entry_point "router"
                      (LangGraph.add_node "router" router_node LangGraph.new))) |}.

(** ** The demonstration and the console loop of [main]

    [input(prompt)] is modelled by what the console hands back: a line, an
    interrupt ([KeyboardInterrupt]) or the end of the input ([EOFError],
    an [Exception] whose text is "EOF when reading a line").
    A run of [main] is given the outcomes of its successive reads; when
    they are used up while the loop is still asking, the run is [Reading]. *)

Inductive read :=
| Line (text : string)
| Interrupt
| Eof.

(** What the program does at the console: an event of the agent or a
    printed line, or a call of [input] with its prompt. *)
Inductive io :=
| Out (ev : event)
| Input (prompt : string).

Inductive status :=
| Returned                  (* the function returned          *)
| Raised (e : Exception)    (* an exception left the function *)
| Reading.                  (* the loop waits for more input  *)

Definition outs (evs : list event) : list io := map Out evs.

(** Truth value of a string: the empty string is false. *)
Definition str_truthy (s : string) : bool :=
  match s with
  | EmptyString => false
  | String _ _ => true
  end.

(** [s.rstrip()] *)
Fixpoint rstrip (s : string) : string :=
  match s with
  | EmptyString => EmptyString
  | String c s' =>
      match rstrip s' with
      | EmptyString => if isspace c then EmptyString else String c EmptyString
      | r => String c r
      end
  end.

(** [s.strip()] *)
Definition strip (s : string) : string := rstrip (lstrip s).

(** [x in words] for a list of strings. *)
Definition str_elem (x : string) (words : list string) : bool :=
  existsb (String.eqb x) words.

(** [str(i)] for a natural number. *)
Definition str_of_nat (i : nat) : string :=
  DecimalString.NilEmpty.string_of_uint (Nat.to_uint i).

Definition quit_words : list string := ["quit"; "exit"; "q"].

Definition test_cases : list string :=
  ["What is 15 + 25 * 3?";
   "Summarize: how is earth formed?";
   "Hello, how are you doing today?"].

(** The body of the [for] loop of [main], from case number [i] on. *)
Fixpoint run_test_cases (agent : MistralAgent) (i : nat) (cases : list string)
    : M unit :=
  match cases with
  | [] => mret tt
  | test_input :: cases' =>
      print (nl +:+ "--- Test Case " +:+ str_of_nat i +:+ " ---");;
      print ("Input: " +:+ test_input);;
      print (nl +:+ "Processing...");;
      result ← run agent test_input;
      print (nl +:+ "Routing Decision: " +:+ get result "next" "Unknown");;
      print ("Processing Type: " +:+ get result "processing_type" "Unknown");;
      print (nl +:+ rule);;
      run_test_cases agent (S i) cases'
  end.

(** One query of the interactive loop: [agent.run(user_input)] under the
    loop's [except Exception] handler. *)
Definition query (agent : MistralAgent) (user_input : string) : list event :=
  events (try_except (run agent user_input;; mret tt)
            (fun e => print ("Error: " +:+ str e))).

Definition ask : io := Input (nl +:+ "Enter your query: ").

(** The [while True] loop of [main] on the outcomes of its reads: what it
    does, and whether it left the loop. *)
Fixpoint interactive (agent : MistralAgent) (stdin : list read) : list io * bool :=
  match stdin with
  | [] => ([], false)
  | got :: stdin' =>
      match got with
      | Line text =>
          let user_input := strip text in
          if str_elem (lower user_input) quit_words then
            ([ask; Out (Print "Goodbye!")], true)
          else if negb (str_truthy user_input) then
            let rest := interactive agent stdin' in
            (ask :: Out (Print "Please enter a valid query.") :: rest.1, rest.2)
          else
            let rest := interactive agent stdin' in
            (ask :: outs (query agent user_input) ++ rest.1, rest.2)
      | Interrupt => ([ask; Out (Print (nl +:+ "Goodbye!"))], true)
      | Eof =>
          let rest := interactive agent stdin' in
          (ask :: Out (Print "Error: EOF when reading a line") :: rest.1, rest.2)
      end
  end.

(** The start of [main]: the banner and the construction of the agent,
    [None] when the construction failed and [main] returns. *)
Definition main_setup (ollama : Exception + LLM) : M (option MistralAgent) :=
  print "LangGraph + Mistral Non-Linear Agent";;
  print rule;;
  try_except
    (agent ← __init__ "mistral" ollama;
     print "Agent initialized successfully!";;
     mret (Some agent))
    (fun e =>
       print ("Failed to initialize agent: " +:+ str e);;
       mret None).

(** [main] up to the interactive loop. *)
Definition main_demo (ollama : Exception + LLM) : M (option MistralAgent) :=
  made ← main_setup ollama;
  match made with
  | None => mret None
  | Some agent =>
      print (nl +:+ "Running Test Cases:");;
      print rule;;
      run_test_cases agent 1 test_cases;;
      print (nl +:+ "Interactive Mode (type 'quit' to exit):");;
      print rule;;
      mret (Some agent)
  end.

Definition main (ollama : Exception + LLM) (stdin : list read) : list io * status :=
  let demo := main_demo ollama in
  match outcome demo with
  | inl e => (outs (events demo), Raised e)
  | inr None => (outs (events demo), Returned)
  | inr (Some agent) =>
      let loop := interactive agent stdin in
      (outs (events demo) ++ loop.1, if loop.2 then Returned else Reading)
  end.

(** ** The routing test of test_agent.py

    The two status marks lie outside the code points below 256 and are
    held as their UTF-8 bytes; they are only printed. *)

Module test_agent.

Definition rule60 : string := repeat_char "=" 60.

Definition print_separator (title : string) : M unit :=
  print (nl +:+ rule60);;
  if str_truthy title then
    print (" " +:+ title +:+ " ");;
    print rule60
  else
    print "".

Definition test_cases : list (string * string) :=
  [("15 + 25 * 3", "math");
   ("Calculate 100 / 5", "math");
   ("What is 2 + 2?", "math");
   ("Solve this equation: x = 10 * 5", "math");
   ("Summarize: This is a test document", "summarizer");
   ("Please summarize the following text", "summarizer");
   ("Sum up this information", "summarizer");
   ("Hello, how are you?", "fallback");
   ("What's the weather like?", "fallback");
   ("Tell me a joke", "fallback")].

Definition pass_mark : string := "✅ PASS".
Definition fail_mark : string := "❌ FAIL".

(** The body of the [for] loop of [test_routing_logic], from test number
    [i] on. *)
Fixpoint check_cases (agent : MistralAgent) (i : nat)
    (cases : list (string * string)) : M unit :=
  match cases with
  | [] => mret tt
  | (query, expected_route) :: cases' =>
      print (nl +:+ "--- Test " +:+ str_of_nat i +:+ " ---");;
      print ("Input: " +:+ query);;
      print ("Expected Route: " +:+ expected_route);;
      let state : dict :=
        <["input" := query]>
          (<["output" := ""]>
             (<["next" := ""]> (<["processing_type" := ""]> ∅))) in
      result_state ← router_node state;
      let actual_route := get result_state "next" "unknown" in
      print ("Actual Route: " +:+ actual_route);;
      print ("Status: " +:+
             (if String.eqb actual_route expected_route then pass_mark
              else fail_mark));;
      check_cases agent (S i) cases'
  end.

Definition test_routing_logic (ollama : Exception + LLM) : M bool :=
  print_separator "ROUTING LOGIC TEST";;
  print "Testing routing decisions...";;
  passed ← try_except
    (agent ← __init__ "mistral" ollama;
     check_cases agent 1 test_cases;;
     mret true)
    (fun e =>
       print ("❌ Error during routing test: " +:+ str e);;
       mret false);
  if passed : bool then
    print_separator "";;
    mret true
  else mret false.

End test_agent.

(** ** Notions the statements about the console use *)

(** The read ends the loop: a quit word, in any letter case and with
    blanks around it, or an interrupt. *)
Definition leaves (got : read) : bool :=
  match got with
  | Line text => str_elem (lower (strip text)) quit_words
  | Interrupt => true
  | Eof => false
  end.

(** The read is passed to the agent: a line that is neither a quit word
    nor blank. *)
Definition asks_agent (got : read) : bool :=
  match got with
  | Line text =>
      negb (str_elem (lower (strip text)) quit_words) && str_truthy (strip text)
  | _ => false
  end.

(** The reads before the first one that ends the loop. *)
Fixpoint before_leaving (stdin : list read) : list read :=
  match stdin with
  | [] => []
  | got :: stdin' => if leaves got then [] else got :: before_leaving stdin'
  end.


Definition is_backend_call (x : io) : bool :=
  match x with
  | Out (Invoke _) => true
  | _ => false
  end.

(** How many calls of the backend a console trace holds. *)
Definition backend_calls (trace : list io) : nat :=
  length (List.filter is_backend_call trace).


(** How many times [line] was printed. *)
Definition printed_times (line : string) (evs : list event) : nat :=
  length (List.filter
            (fun ev => match ev with
                       | Print l => String.eqb l line
                       | _ => false
                       end) evs).

(** The targets the conditional edges of the router name. *)
Definition route_target (route : string) : option string :=
  (<["math" := "math"]>
     (<["summarizer" := "summarizer"]>
        (<["fallback" := "final"]> (∅ : gmap string string)))) !! route.

(** * Properties *)

(** ** Text *)

#[local] Arguments String.append !_ _ / : simpl nomatch.

Section TextFacts.

Lemma append_nil_r (s : string) : s +:+ "" = s.
Proof. induction s as [|c s IH]; simpl; [reflexivity | now rewrite IH]. Qed.

Lemma startswith_spec (p s : string) :
  startswith p s = true <-> has_prefix p s.
Proof.
  revert s. induction p as [|a p IH]; intros s; simpl.
  - split; [intros _; now exists s | reflexivity].
  - destruct s as [|b s].
    + split; [discriminate | intros [t Ht]; discriminate].
    + rewrite andb_true_iff, Ascii.eqb_eq, IH. split.
      * intros [-> [t ->]]. now exists t.
      * intros [t Ht]. simpl in Ht. injection Ht as -> ->. split; [reflexivity | now exists t].
Qed.

Lemma str_in_spec (p s : string) : str_in p s = true <-> occurs_in p s.
Proof.
  induction s as [|c s IH].
  - simpl. rewrite orb_false_r, startswith_spec. split.
    + intros [t Ht]. now exists "", t.
    + intros [a [b Hab]]. destruct a as [|x a]; [now exists b | discriminate].
  - change (str_in p (String c s)) with (startswith p (String c s) || str_in p s).
    rewrite orb_true_iff, startswith_spec, IH. split.
    + intros [[t Ht] | [a [b Hab]]].
      * now exists "", t.
      * exists (String c a), b. simpl. now rewrite Hab.
    + intros [a [b Hab]]. destruct a as [|x a].
      * left. now exists b.
      * right. simpl in Hab. injection Hab as _ ->. now exists a, b.
Qed.

Lemma any_in_spec (patterns : list string) (text : string) :
  any_in patterns text = true <->
  exists p, In p patterns /\ occurs_in p text.
Proof.
  unfold any_in. rewrite existsb_exists.
  split; intros [p [Hin Hp]]; exists p; split; auto; now apply str_in_spec.
Qed.

Lemma any_in_false (patterns : list string) (text : string) :
  (forall p, In p patterns -> ~ occurs_in p text) ->
  any_in patterns text = false.
Proof.
  intros H. destruct (any_in patterns text) eqn:E; [|reflexivity].
  apply any_in_spec in E as [p [Hin Hp]]. now destruct (H p Hin).
Qed.

End TextFacts.

(** ** The router *)

Section Router.

Lemma router_node_math (state : dict) :
  any_in math_patterns (lower (get state "input" "")) = true ->
  router_node state =
    ([Log INFO "Router: Directing to math node"],
     inr (routed "math" "mathematical" state)).
Proof. intros H. unfold router_node. now rewrite H. Qed.

Lemma router_node_summarizer (state : dict) :
  any_in math_patterns (lower (get state "input" "")) = false ->
  any_in summary_keywords (lower (get state "input" "")) = true ->
  router_node state =
    ([Log INFO "Router: Directing to summarizer node"],
     inr (routed "summarizer" "summarization" state)).
Proof. intros H1 H2. unfold router_node. now rewrite H1, H2. Qed.

Lemma router_node_fallback (state : dict) :
  any_in math_patterns (lower (get state "input" "")) = false ->
  any_in summary_keywords (lower (get state "input" "")) = false ->
  router_node state =
    ([Log INFO "Router: Directing to fallback (final node)"],
     inr (routed "fallback" "general" state)).
Proof. intros H1 H2. unfold router_node. now rewrite H1, H2. Qed.

Lemma routed_next n t (state : dict) : routed n t state !! "next" = Some n.
Proof. unfold routed. now simplify_map_eq. Qed.

Lemma routed_processing_type n t (state : dict) :
  routed n t state !! "processing_type" = Some t.
Proof. unfold routed. now simplify_map_eq. Qed.

Lemma routed_input n t (state : dict) :
  routed n t state !! "input" = state !! "input".
Proof. unfold routed. now simplify_map_eq. Qed.

Lemma routed_output n t (state : dict) :
  routed n t state !! "output" = state !! "output".
Proof. unfold routed. now simplify_map_eq. Qed.

Lemma routed_get_input n t (state : dict) :
  get (routed n t state) "input" "" = get state "input" "".
Proof. unfold get. now rewrite routed_input. Qed.

Lemma routed_idem n t (state : dict) :
  routed n t (routed n t state) = routed n t state.
Proof.
  unfold routed. apply map_eq. intros k.
  destruct (decide (k = "processing_type")) as [->|]; [now simplify_map_eq|].
  destruct (decide (k = "next")) as [->|]; now simplify_map_eq.
Qed.

(** The router always returns, on one of its three branches. *)
Lemma router_node_cases (state : dict) :
  exists n t msg,
    router_node state = ([Log INFO msg], inr (routed n t state)) /\
    ((n, t) = ("math", "mathematical") \/
     (n, t) = ("summarizer", "summarization") \/
     (n, t) = ("fallback", "general")).
Proof.
  destruct (any_in math_patterns (lower (get state "input" ""))) eqn:E1.
  - eexists _, _, _. split; [now apply router_node_math | auto].
  - destruct (any_in summary_keywords (lower (get state "input" ""))) eqn:E2.
    + eexists _, _, _. split; [now apply router_node_summarizer | auto].
    + eexists _, _, _. split; [now apply router_node_fallback | auto].
Qed.

End Router.

(** C1: an input whose lower-cased form contains one of the math markers is
    routed to the math node and typed mathematical, whatever else it
    contains: the math test comes first. *)
Theorem C1_math_marker_routes_to_math (state : dict) (p : string) :
  In p math_patterns ->
  occurs_in p (lower (get state "input" "")) ->
  exists state',
    router_node state =
      ([Log INFO "Router: Directing to math node"], inr state') /\
    state' !! "next" = Some "math" /\
    state' !! "processing_type" = Some "mathematical" /\
    decide_next_node state' = "math".
Proof.
  intros Hin Hocc.
  exists (routed "math" "mathematical" state).
  split.
  - apply router_node_math, any_in_spec. now exists p.
  - unfold decide_next_node, get.
    now rewrite routed_next, routed_processing_type.
Qed.

Lemma C1_witness :
  In "-" math_patterns /\
  occurs_in "-" (lower (get {["input" := "A State-Of-The-Art summary"]} "input" "")) /\
  exists state',
    router_node {["input" := "A State-Of-The-Art summary"]} =
      ([Log INFO "Router: Directing to math node"], inr state') /\
    state' !! "next" = Some "math" /\
    state' !! "processing_type" = Some "mathematical" /\
    decide_next_node state' = "math".
Proof.
  assert (H1 : In "-" math_patterns) by (simpl; auto).
  assert (H2 : occurs_in "-"
            (lower (get {["input" := "A State-Of-The-Art summary"]} "input" "")))
    by (apply str_in_spec; vm_compute; reflexivity).
  split; [exact H1 | split; [exact H2 |]].
  exact (C1_math_marker_routes_to_math _ "-" H1 H2).
Defined.

(** C2: an input whose lower-cased form contains a summarize keyword and
    no math marker is routed to the summarizer and typed summarization. *)
Theorem C2_summary_keyword_routes_to_summarizer (state : dict) (k : string) :
  In k summary_keywords ->
  occurs_in k (lower (get state "input" "")) ->
  (forall p, In p math_patterns -> ~ occurs_in p (lower (get state "input" ""))) ->
  exists state',
    router_node state =
      ([Log INFO "Router: Directing to summarizer node"], inr state') /\
    state' !! "next" = Some "summarizer" /\
    state' !! "processing_type" = Some "summarization" /\
    decide_next_node state' = "summarizer".
Proof.
  intros Hin Hocc Hno.
  exists (routed "summarizer" "summarization" state).
  split.
  - apply router_node_summarizer.
    + now apply any_in_false.
    + apply any_in_spec. now exists k.
  - unfold decide_next_node, get.
    now rewrite routed_next, routed_processing_type.
Qed.

(** No pattern of a list occurs in a text, from the evaluated tests. *)
Lemma none_occurs (patterns : list string) (text : string) :
  any_in patterns text = false ->
  forall p, In p patterns -> ~ occurs_in p text.
Proof.
  intros E p Hin Hocc.
  assert (any_in patterns text = true) by (apply any_in_spec; now exists p).
  congruence.
Qed.

Lemma C2_witness :
  In "sum up" summary_keywords /\
  occurs_in "sum up" (lower (get {["input" := "Sum Up this information"]} "input" "")) /\
  (forall p, In p math_patterns ->
     ~ occurs_in p (lower (get {["input" := "Sum Up this information"]} "input" ""))) /\
  exists state',
    router_node {["input" := "Sum Up this information"]} =
      ([Log INFO "Router: Directing to summarizer node"], inr state') /\
    state' !! "next" = Some "summarizer" /\
    state' !! "processing_type" = Some "summarization" /\
    decide_next_node state' = "summarizer".
Proof.
  assert (H1 : In "sum up" summary_keywords) by (simpl; auto).
  assert (H2 : occurs_in "sum up"
            (lower (get {["input" := "Sum Up this information"]} "input" "")))
    by (apply str_in_spec; vm_compute; reflexivity).
  assert (H3 : forall p, In p math_patterns ->
            ~ occurs_in p (lower (get {["input" := "Sum Up this information"]} "input" "")))
    by (apply none_occurs; vm_compute; reflexivity).
  split; [exact H1 | split; [exact H2 | split; [exact H3 |]]].
  exact (C2_summary_keyword_routes_to_summarizer _ "sum up" H1 H2 H3).
Defined.

(** C3: an input whose lower-cased form contains neither a math marker nor
    a summarize keyword is routed to the fallback and typed general; the
    empty input is such an input. *)
Theorem C3_other_input_routes_to_general :
  (forall state : dict,
     (forall p, In p math_patterns -> ~ occurs_in p (lower (get state "input" ""))) ->
     (forall k, In k summary_keywords -> ~ occurs_in k (lower (get state "input" ""))) ->
     exists state',
       router_node state =
         ([Log INFO "Router: Directing to fallback (final node)"], inr state') /\
       state' !! "next" = Some "fallback" /\
       state' !! "processing_type" = Some "general" /\
       decide_next_node state' = "fallback") /\
  (forall state : dict,
     get state "input" "" = "" ->
     exists state',
       router_node state =
         ([Log INFO "Router: Directing to fallback (final node)"], inr state') /\
       state' !! "next" = Some "fallback" /\
       state' !! "processing_type" = Some "general").
Proof.
  split.
  - intros state Hm Hs.
    exists (routed "fallback" "general" state).
    split.
    + apply router_node_fallback; now apply any_in_false.
    + unfold decide_next_node, get.
      now rewrite routed_next, routed_processing_type.
  - intros state Hempty.
    exists (routed "fallback" "general" state).
    split.
    + apply router_node_fallback; rewrite Hempty; reflexivity.
    + now rewrite routed_next, routed_processing_type.
Qed.

Lemma C3_witness :
  (exists state',
     router_node {["input" := "Hello, how are you?"]} =
       ([Log INFO "Router: Directing to fallback (final node)"], inr state') /\
     state' !! "next" = Some "fallback" /\
     state' !! "processing_type" = Some "general" /\
     decide_next_node state' = "fallback") /\
  (exists state',
     router_node (initial_state "") =
       ([Log INFO "Router: Directing to fallback (final node)"], inr state') /\
     state' !! "next" = Some "fallback" /\
     state' !! "processing_type" = Some "general").
Proof.
  split.
  - apply (proj1 C3_other_input_routes_to_general {["input" := "Hello, how are you?"]});
      apply none_occurs; vm_compute; reflexivity.
  - apply (proj2 C3_other_input_routes_to_general (initial_state "")).
    vm_compute; reflexivity.
Defined.

(** C9: the classification is a function of the input text alone, and the
    router leaves the input text as it was, so classifying the state it
    returned once more gives the same route, the same type and the same
    state. *)
Theorem C9_classification_repeatable :
  (forall s1 s2 : dict,
     get s1 "input" "" = get s2 "input" "" ->
     exists evs r1 r2,
       router_node s1 = (evs, inr r1) /\ router_node s2 = (evs, inr r2) /\
       r1 !! "next" = r2 !! "next" /\
       r1 !! "processing_type" = r2 !! "processing_type") /\
  (forall s : dict,
     exists evs r,
       router_node s = (evs, inr r) /\
       r !! "input" = s !! "input" /\
       router_node r = (evs, inr r)).
Proof.
  split.
  - intros s1 s2 Heq.
    unfold router_node. rewrite <- Heq.
    destruct (any_in math_patterns (lower (get s1 "input" ""))).
    { eexists _, _, _. split; [reflexivity | split; [reflexivity |]].
      now simplify_map_eq. }
    destruct (any_in summary_keywords (lower (get s1 "input" ""))).
    { eexists _, _, _. split; [reflexivity | split; [reflexivity |]].
      now simplify_map_eq. }
    eexists _, _, _. split; [reflexivity | split; [reflexivity |]].
    now simplify_map_eq.
  - intros s.
    destruct (any_in math_patterns (lower (get s "input" ""))) eqn:E1;
      [| destruct (any_in summary_keywords (lower (get s "input" ""))) eqn:E2].
    + eexists _, _. split; [now apply router_node_math |].
      split; [apply routed_input |].
      rewrite router_node_math by now rewrite routed_get_input.
      now rewrite routed_idem.
    + eexists _, _. split; [now apply router_node_summarizer |].
      split; [apply routed_input |].
      rewrite router_node_summarizer by now rewrite routed_get_input.
      now rewrite routed_idem.
    + eexists _, _. split; [now apply router_node_fallback |].
      split; [apply routed_input |].
      rewrite router_node_fallback by now rewrite routed_get_input.
      now rewrite routed_idem.
Qed.

Lemma C9_witness :
  get (initial_state "Solve x") "input" "" =
    get {["input" := "Solve x"; "next" := "summarizer"]} "input" "" /\
  exists evs r1 r2,
    router_node (initial_state "Solve x") = (evs, inr r1) /\
    router_node {["input" := "Solve x"; "next" := "summarizer"]} = (evs, inr r2) /\
    r1 !! "next" = r2 !! "next" /\
    r1 !! "processing_type" = r2 !! "processing_type".
Proof.
  assert (H : get (initial_state "Solve x") "input" "" =
              get {["input" := "Solve x"; "next" := "summarizer"]} "input" "")
    by (vm_compute; reflexivity).
  split; [exact H |].
  exact (proj1 C9_classification_repeatable _ _ H).
Defined.

(** ** The prefix the summarizer removes *)

Section Prefix.

Lemma lower_append (a b : string) : lower (a +:+ b) = lower a +:+ lower b.
Proof. induction a as [|c a IH]; simpl; [reflexivity | now rewrite IH]. Qed.

(** Only the colon lower-cases to the colon. *)
Lemma colon_matches (c : ascii) :
  Re.atom_matches true (Re.Lit ":") c = Ascii.eqb c ":".
Proof. destruct c as [[] [] [] [] [] [] [] []]; reflexivity. Qed.

(** A literal word matches, ignoring case, the texts that begin with a
    token lower-casing to the word's lower-case form. *)
Lemma match_word (w tok rest : string) (p : list Re.item) :
  lower tok = lower w ->
  Re.match_here true (Re.word w ++ p) (tok +:+ rest) = Re.match_here true p rest.
Proof.
  revert tok. induction w as [|c w IH]; intros tok H.
  - destruct tok; [reflexivity | discriminate].
  - destruct tok as [|d tok]; [discriminate |].
    simpl in H. injection H as Hc Hw. simpl.
    rewrite Hc, Ascii.eqb_refl. now apply IH.
Qed.

Lemma match_word_inv (w s r : string) (p : list Re.item) :
  Re.match_here true (Re.word w ++ p) s = Some r ->
  exists tok rest,
    s = tok +:+ rest /\ lower tok = lower w /\ Re.match_here true p rest = Some r.
Proof.
  revert s. induction w as [|c w IH]; intros s H.
  - now exists "", s.
  - destruct s as [|d s]; [discriminate |]. simpl in H.
    destruct (Ascii.eqb (lower_char d) (lower_char c)) eqn:E; [| discriminate].
    apply Ascii.eqb_eq in E.
    destruct (IH s H) as [tok [rest [-> [Hl Hm]]]].
    exists (String d tok), rest. simpl. now rewrite E, Hl.
Qed.

Lemma match_spaces (s : string) :
  Re.match_here true [Re.Many Re.Space] s = Some (lstrip s).
Proof.
  induction s as [|c s IH]; [reflexivity |].
  simpl in *. destruct (isspace c); [now rewrite IH | reflexivity].
Qed.

Lemma match_colon_spaces (s : string) :
  Re.match_here true [Re.Optional (Re.Lit ":"); Re.Many Re.Space] s =
  Some (lstrip (drop_colon s)).
Proof.
  destruct s as [|c s]; [reflexivity |].
  change (Re.match_here true [Re.Optional (Re.Lit ":"); Re.Many Re.Space] (String c s))
    with (match (if Re.atom_matches true (Re.Lit ":") c
                 then Re.match_here true [Re.Many Re.Space] s else None) with
          | Some r => Some r
          | None => Re.match_here true [Re.Many Re.Space] (String c s)
          end).
  rewrite colon_matches. unfold drop_colon.
  destruct (Ascii.eqb c ":"); now rewrite match_spaces.
Qed.

Lemma lower_summarize : lower "summarize" = "summarize".
Proof. reflexivity. Qed.

Lemma text_to_summarize_token (tok rest : string) :
  lower tok = "summarize" ->
  text_to_summarize (tok +:+ rest) = lstrip (drop_colon rest).
Proof.
  intros H. unfold text_to_summarize, Re.sub_anchored, summarize_prefix.
  rewrite match_word by now rewrite lower_summarize.
  now rewrite match_colon_spaces.
Qed.

Lemma text_to_summarize_other (s : string) :
  (forall tok rest, s = tok +:+ rest -> lower tok <> "summarize") ->
  text_to_summarize s = s.
Proof.
  intros H. unfold text_to_summarize, Re.sub_anchored, summarize_prefix.
  destruct (Re.match_here true _ s) as [r|] eqn:E; [| reflexivity].
  apply match_word_inv in E as [tok [rest [-> [Hl _]]]].
  now destruct (H tok rest eq_refl).
Qed.

End Prefix.

(** C5, as amended: the summarizer removes from the input the token
    "summarize" in any letter case when the input begins with it (leading
    whitespace is not skipped), one colon directly after it, and the run of
    whitespace that follows; an input that does not begin with the token
    is left as it is.  "Summarize: how is earth formed?" gives
    "how is earth formed?". *)
Theorem C5_prefix_removed_at_start :
  (forall tok rest : string,
     lower tok = "summarize" ->
     text_to_summarize (tok +:+ rest) = lstrip (drop_colon rest)) /\
  (forall s : string,
     (forall tok rest, s = tok +:+ rest -> lower tok <> "summarize") ->
     text_to_summarize s = s) /\
  text_to_summarize "Summarize: how is earth formed?" = "how is earth formed?".
Proof.
  split; [exact text_to_summarize_token |].
  split; [exact text_to_summarize_other | reflexivity].
Qed.

(** A text that does not begin with a token lower-casing to [w], from the
    evaluated test. *)
Lemma no_token (w s : string) :
  startswith (lower w) (lower s) = false ->
  forall tok rest, s = tok +:+ rest -> lower tok <> lower w.
Proof.
  intros E tok rest -> H.
  assert (startswith (lower w) (lower (tok +:+ rest)) = true); [| congruence].
  apply startswith_spec. exists (lower rest). now rewrite lower_append, H.
Qed.

Lemma C5_witness :
  (lower "SUMMARIZE" = "summarize" /\
   text_to_summarize ("SUMMARIZE" +:+ ":  the text") = lstrip (drop_colon ":  the text")) /\
  ((forall tok rest, " summarize: x" = tok +:+ rest -> lower tok <> "summarize") /\
   text_to_summarize " summarize: x" = " summarize: x").
Proof.
  split.
  - assert (H : lower "SUMMARIZE" = "summarize") by reflexivity.
    split; [exact H |].
    exact (proj1 C5_prefix_removed_at_start "SUMMARIZE" ":  the text" H).
  - assert (H : forall tok rest, " summarize: x" = tok +:+ rest -> lower tok <> "summarize")
      by (apply (no_token "summarize"); vm_compute; reflexivity).
    split; [exact H |].
    exact (proj1 (proj2 C5_prefix_removed_at_start) " summarize: x" H).
Defined.

(** C5, as stated, fails: with a blank before the token the code removes
    nothing, where the reading that skips leading whitespace removes the
    blank, the token and the colon. *)
Lemma C5_leading_whitespace_counterexample :
  text_to_summarize " summarize: x" = " summarize: x" /\
  text_to_summarize_skipping_blanks " summarize: x" = " x" /\
  text_to_summarize " summarize: x" <> text_to_summarize_skipping_blanks " summarize: x".
Proof.
  split; [reflexivity | split; [reflexivity |]].
  vm_compute. discriminate.
Qed.

(** ** The responders *)

Ltac run_M :=
  unfold try_except, llm_invoke, logger_info, logger_error, print, emit, raise,
    mbind, M_bind, mret, M_ret; cbn [fst snd List.app].

Section Responders.

Variable llm : LLM.

Lemma math_node_reply (state : dict) (response : string) :
  llm (math_prompt (get state "input" "")) = inr response ->
  math_node llm state =
    ([Invoke (math_prompt (get state "input" ""));
      Log INFO "Math node: Successfully processed mathematical query"],
     inr (<["output" := "[MATH] Math Solution:" +:+ nl +:+ response]> state)).
Proof. intros H. unfold math_node. run_M. rewrite H. reflexivity. Qed.

Lemma math_node_raise (state : dict) (e : Exception) :
  llm (math_prompt (get state "input" "")) = inl e ->
  math_node llm state =
    ([Invoke (math_prompt (get state "input" ""));
      Log ERROR ("Math node error: " +:+ str e)],
     inr (<["output" := math_error e]> state)).
Proof. intros H. unfold math_node. run_M. rewrite H. reflexivity. Qed.

Lemma summarizer_node_reply (state : dict) (response : string) :
  llm (summary_prompt (text_to_summarize (get state "input" ""))) = inr response ->
  summarizer_node llm state =
    ([Invoke (summary_prompt (text_to_summarize (get state "input" "")));
      Log INFO "Summarizer node: Successfully processed summarization request"],
     inr (<["output" := "[SUMMARY] Summary:" +:+ nl +:+ response]> state)).
Proof. intros H. unfold summarizer_node. run_M. rewrite H. reflexivity. Qed.

Lemma summarizer_node_raise (state : dict) (e : Exception) :
  llm (summary_prompt (text_to_summarize (get state "input" ""))) = inl e ->
  summarizer_node llm state =
    ([Invoke (summary_prompt (text_to_summarize (get state "input" "")));
      Log ERROR ("Summarizer node error: " +:+ str e)],
     inr (<["output" := summary_error e]> state)).
Proof. intros H. unfold summarizer_node. run_M. rewrite H. reflexivity. Qed.

Lemma fallback_reply (state : dict) (response : string) :
  llm (general_prompt (get state "input" "")) = inr response ->
  fallback llm state =
    ([Invoke (general_prompt (get state "input" ""));
      Log INFO "Final node: Processed general query"],
     inr (<["output" := "[GENERAL] General Response:" +:+ nl +:+ response]> state)).
Proof. intros H. unfold fallback. run_M. rewrite H. reflexivity. Qed.

Lemma fallback_raise (state : dict) (e : Exception) :
  llm (general_prompt (get state "input" "")) = inl e ->
  fallback llm state =
    ([Invoke (general_prompt (get state "input" ""));
      Log ERROR ("Final node error: " +:+ str e)],
     inr (<["output" := general_error e]> state)).
Proof. intros H. unfold fallback. run_M. rewrite H. reflexivity. Qed.

Lemma math_node_responded (state : dict) :
  responded llm "[MATH]" (math_prompt (get state "input" "")) state (math_node llm state).
Proof.
  destruct (llm (math_prompt (get state "input" ""))) as [e|r] eqn:E.
  - eexists _, _, _. split; [exact (math_node_raise _ _ E) |].
    split; [discriminate |]. split.
    + right. eexists. reflexivity.
    + intros e' He'. rewrite ?E in He'. injection He' as <-. split; [eexists; reflexivity |].
      eexists _, "". unfold math_error. now rewrite append_nil_r.
  - eexists _, _, _. split; [exact (math_node_reply _ _ E) |].
    split; [discriminate |]. split.
    + left. eexists. reflexivity.
    + intros e' He'. rewrite ?E in He'. discriminate.
Qed.

Lemma summarizer_node_responded (state : dict) :
  responded llm "[SUMMARY]" (summary_prompt (text_to_summarize (get state "input" ""))) state
    (summarizer_node llm state).
Proof.
  destruct (llm (summary_prompt (text_to_summarize (get state "input" ""))))
    as [e|r] eqn:E.
  - eexists _, _, _. split; [exact (summarizer_node_raise _ _ E) |].
    split; [discriminate |]. split.
    + right. eexists. reflexivity.
    + intros e' He'. rewrite ?E in He'. injection He' as <-. split; [eexists; reflexivity |].
      eexists _, "". unfold summary_error. now rewrite append_nil_r.
  - eexists _, _, _. split; [exact (summarizer_node_reply _ _ E) |].
    split; [discriminate |]. split.
    + left. eexists. reflexivity.
    + intros e' He'. rewrite ?E in He'. discriminate.
Qed.

Lemma fallback_responded (state : dict) :
  responded llm "[GENERAL]" (general_prompt (get state "input" "")) state (fallback llm state).
Proof.
  destruct (llm (general_prompt (get state "input" ""))) as [e|r] eqn:E.
  - eexists _, _, _. split; [exact (fallback_raise _ _ E) |].
    split; [discriminate |]. split.
    + right. eexists. reflexivity.
    + intros e' He'. rewrite ?E in He'. injection He' as <-. split; [eexists; reflexivity |].
      eexists _, "". unfold general_error. now rewrite append_nil_r.
  - eexists _, _, _. split; [exact (fallback_reply _ _ E) |].
    split; [discriminate |]. split.
    + left. eexists. reflexivity.
    + intros e' He'. rewrite ?E in He'. discriminate.
Qed.

(** ** The final printer *)

Lemma present_events (state : dict) (output : string) :
  state !! "output" = Some output ->
  present state = (printed state output, inr tt).
Proof. intros H. unfold present, getitem. rewrite H. reflexivity. Qed.

Lemma truthy_nonempty (state : dict) (output : string) :
  state !! "output" = Some output -> output <> "" ->
  truthy (state !! "output") = true.
Proof. intros -> H. destruct output; [now destruct H | reflexivity]. Qed.

Lemma final_node_populated (state : dict) (output : string) :
  state !! "output" = Some output -> output <> "" ->
  final_node llm state = (printed state output, inr state).
Proof.
  intros H Hne. unfold final_node.
  rewrite (truthy_nonempty _ _ H Hne). cbn [negb].
  run_M. rewrite (present_events _ _ H). cbn [fst snd List.app].
  now rewrite app_nil_r.
Qed.

Lemma final_node_empty (state : dict) :
  truthy (state !! "output") = false ->
  exists lv msg output,
    final_node llm state =
      ([Invoke (general_prompt (get state "input" "")); Log lv msg] ++
         printed (<["output" := output]> state) output,
       inr (<["output" := output]> state)) /\
    fallback llm state =
      ([Invoke (general_prompt (get state "input" "")); Log lv msg],
       inr (<["output" := output]> state)) /\
    output <> "" /\
    (has_prefix "[GENERAL]" output \/ has_prefix "[ERROR]" output) /\
    (forall e, llm (general_prompt (get state "input" "")) = inl e ->
       has_prefix "[ERROR]" output /\ occurs_in (str e) output).
Proof.
  intros H.
  destruct (llm (general_prompt (get state "input" ""))) as [e|r] eqn:E.
  - exists ERROR, ("Final node error: " +:+ str e), (general_error e).
    unfold final_node. rewrite H. cbn [negb].
    rewrite (fallback_raise _ _ E). run_M.
    rewrite (present_events _ (general_error e)) by now simplify_map_eq.
    cbn [fst snd List.app]. rewrite app_nil_r.
    split; [reflexivity |]. split; [reflexivity |].
    split; [discriminate |]. split; [right; eexists; reflexivity |].
    intros e' He'. rewrite ?E in He'. injection He' as <-. split; [eexists; reflexivity |].
    eexists _, "". unfold general_error. now rewrite append_nil_r.
  - exists INFO, "Final node: Processed general query",
      ("[GENERAL] General Response:" +:+ nl +:+ r).
    unfold final_node. rewrite H. cbn [negb].
    rewrite (fallback_reply _ _ E). run_M.
    rewrite (present_events _ ("[GENERAL] General Response:" +:+ nl +:+ r))
      by now simplify_map_eq.
    cbn [fst snd List.app]. rewrite app_nil_r.
    split; [reflexivity |]. split; [reflexivity |].
    split; [discriminate |]. split; [left; eexists; reflexivity |].
    intros e' He'. rewrite ?E in He'. discriminate.
Qed.

End Responders.

(** ** The graph *)

Section Graph.

Variable llm : LLM.

Lemma nodes_router :
  LangGraph.nodes (_build_graph llm) !! "router" = Some router_node.
Proof. reflexivity. Qed.

Lemma nodes_math :
  LangGraph.nodes (_build_graph llm) !! "math" = Some (math_node llm).
Proof. reflexivity. Qed.

Lemma nodes_summarizer :
  LangGraph.nodes (_build_graph llm) !! "summarizer" = Some (summarizer_node llm).
Proof. reflexivity. Qed.

Lemma nodes_final :
  LangGraph.nodes (_build_graph llm) !! "final" = Some (final_node llm).
Proof. reflexivity. Qed.

Lemma successor_router (state : dict) (n t : string) :
  (n = "math" /\ t = "math") \/ (n = "summarizer" /\ t = "summarizer") \/
  (n = "fallback" /\ t = "final") ->
  state !! "next" = Some n ->
  LangGraph.successor (_build_graph llm) "router" state = mret t.
Proof.
  intros H Hn. unfold LangGraph.successor.
  change (LangGraph.branches (_build_graph llm) !! "router")
    with (Some (decide_next_node,
                (<["math" := "math"]>
                   (<["summarizer" := "summarizer"]>
                      (<["fallback" := "final"]> (∅ : gmap string string)))))).
  unfold decide_next_node, get. rewrite Hn. cbn [default].
  destruct H as [[-> ->] | [[-> ->] | [-> ->]]]; reflexivity.
Qed.

Lemma successor_math (state : dict) :
  LangGraph.successor (_build_graph llm) "math" state = mret "final".
Proof. reflexivity. Qed.

Lemma successor_summarizer (state : dict) :
  LangGraph.successor (_build_graph llm) "summarizer" state = mret "final".
Proof. reflexivity. Qed.

Lemma successor_final (state : dict) :
  LangGraph.successor (_build_graph llm) "final" state = mret LangGraph.END.
Proof. reflexivity. Qed.

Lemma walk_END (g : LangGraph.StateGraph) (fuel : nat) (state : dict) :
  LangGraph.walk g fuel LangGraph.END state = mret ([], state).
Proof. destruct fuel; reflexivity. Qed.

(** One step of the run, for a node that returns and has a successor. *)
Lemma walk_step (g : LangGraph.StateGraph) (fuel : nat) (cur next : string)
    (action : dict -> M dict) (state state' final : dict)
    (evs evs' : list event) (vs : list LangGraph.visit) :
  cur <> LangGraph.END ->
  LangGraph.nodes g !! cur = Some action ->
  action state = (evs, inr state') ->
  LangGraph.successor g cur state' = mret next ->
  LangGraph.walk g fuel next state' = (evs', inr (vs, final)) ->
  LangGraph.walk g (S fuel) cur state =
    (evs ++ evs',
     inr (visited cur state state' :: vs, final)).
Proof.
  intros Hne Hnode Hact Hsucc Hwalk.
  cbn [LangGraph.walk]. rewrite decide_False by exact Hne.
  rewrite Hnode. unfold mbind, M_bind. rewrite Hact. cbn [fst snd].
  rewrite Hsucc. unfold mret, M_ret. cbn [fst snd].
  rewrite Hwalk. cbn [fst snd List.app]. now rewrite app_nil_r.
Qed.

Lemma walk_final_populated (fuel : nat) (state : dict) (output : string) :
  state !! "output" = Some output -> output <> "" ->
  LangGraph.walk (_build_graph llm) (S fuel) "final" state =
    (printed state output, inr ([visited "final" state state], state)).
Proof.
  intros H Hne.
  rewrite (walk_step _ fuel "final" LangGraph.END (final_node llm)
             state state state (printed state output) [] []).
  - now rewrite app_nil_r.
  - discriminate.
  - apply nodes_final.
  - now apply final_node_populated.
  - apply successor_final.
  - apply walk_END.
Qed.

Lemma get_initial_input (input : string) :
  get (initial_state input) "input" "" = input.
Proof. reflexivity. Qed.

(** The run of the graph on a fresh request: the router, then the
    responder the route names and the final printer, or the final printer
    alone, which then answers itself. *)
Lemma start_cases (input : string) :
  exists n t msg tag prompt lv rmsg o middle,
    router_node (initial_state input) =
      ([Log INFO msg], inr (routed n t (initial_state input))) /\
    LangGraph.start (_build_graph llm) (initial_state input) =
      ([Log INFO msg; Invoke prompt; Log lv rmsg] ++
         printed (<["output" := o]> (routed n t (initial_state input))) o,
       inr (visited "router" (initial_state input)
              (routed n t (initial_state input)) :: middle,
            <["output" := o]> (routed n t (initial_state input)))) /\
    o <> "" /\
    (has_prefix tag o \/ has_prefix "[ERROR]" o) /\
    (forall e, llm prompt = inl e ->
       has_prefix "[ERROR]" o /\ occurs_in (str e) o) /\
    ((n = "math" /\ t = "mathematical" /\ tag = "[MATH]" /\
      prompt = math_prompt input /\
      math_node llm (routed n t (initial_state input)) =
        ([Invoke prompt; Log lv rmsg],
         inr (<["output" := o]> (routed n t (initial_state input)))) /\
      middle =
        [visited "math" (routed n t (initial_state input))
           (<["output" := o]> (routed n t (initial_state input)));
         visited "final" (<["output" := o]> (routed n t (initial_state input)))
           (<["output" := o]> (routed n t (initial_state input)))]) \/
     (n = "summarizer" /\ t = "summarization" /\ tag = "[SUMMARY]" /\
      prompt = summary_prompt (text_to_summarize input) /\
      summarizer_node llm (routed n t (initial_state input)) =
        ([Invoke prompt; Log lv rmsg],
         inr (<["output" := o]> (routed n t (initial_state input)))) /\
      middle =
        [visited "summarizer" (routed n t (initial_state input))
           (<["output" := o]> (routed n t (initial_state input)));
         visited "final" (<["output" := o]> (routed n t (initial_state input)))
           (<["output" := o]> (routed n t (initial_state input)))]) \/
     (n = "fallback" /\ t = "general" /\ tag = "[GENERAL]" /\
      prompt = general_prompt input /\
      fallback llm (routed n t (initial_state input)) =
        ([Invoke prompt; Log lv rmsg],
         inr (<["output" := o]> (routed n t (initial_state input)))) /\
      middle =
        [visited "final" (routed n t (initial_state input))
           (<["output" := o]> (routed n t (initial_state input)))])).
Proof.
  set (s0 := initial_state input).
  destruct (router_node_cases s0) as (n & t & msg & Hr & Hnt).
  assert (Hin : get (routed n t s0) "input" "" = input)
    by (rewrite routed_get_input; apply get_initial_input).
  destruct Hnt as [[= -> ->] | [[= -> ->] | [= -> ->]]].
  - destruct (math_node_responded llm (routed "math" "mathematical" s0))
      as (lv & rmsg & o & Hm & Hne & Htag & Herr).
    rewrite Hin in Hm, Herr.
    exists "math", "mathematical", msg, "[MATH]", (math_prompt input), lv, rmsg, o.
    eexists. split; [exact Hr |].
    split; [| split; [exact Hne | split; [exact Htag | split; [exact Herr |]]];
               left; repeat split; try reflexivity; exact Hm].
    assert (H3 := walk_final_populated 22
                    (<["output" := o]> (routed "math" "mathematical" s0)) o
                    ltac:(now simplify_map_eq) Hne).
    assert (H2 := walk_step _ 23 "math" "final" _ _ _ _ _ _ _
                    ltac:(discriminate) nodes_math Hm (successor_math _) H3).
    exact (walk_step _ 24 "router" "math" _ _ _ _ _ _ _
             ltac:(discriminate) nodes_router Hr
             (successor_router _ "math" "math" ltac:(auto) (routed_next _ _ _)) H2).
  - destruct (summarizer_node_responded llm (routed "summarizer" "summarization" s0))
      as (lv & rmsg & o & Hm & Hne & Htag & Herr).
    rewrite Hin in Hm, Herr.
    exists "summarizer", "summarization", msg, "[SUMMARY]",
      (summary_prompt (text_to_summarize input)), lv, rmsg, o.
    eexists. split; [exact Hr |].
    split; [| split; [exact Hne | split; [exact Htag | split; [exact Herr |]]];
               right; left; repeat split; try reflexivity; exact Hm].
    assert (H3 := walk_final_populated 22
                    (<["output" := o]> (routed "summarizer" "summarization" s0)) o
                    ltac:(now simplify_map_eq) Hne).
    assert (H2 := walk_step _ 23 "summarizer" "final" _ _ _ _ _ _ _
                    ltac:(discriminate) nodes_summarizer Hm (successor_summarizer _) H3).
    exact (walk_step _ 24 "router" "summarizer" _ _ _ _ _ _ _
             ltac:(discriminate) nodes_router Hr
             (successor_router _ "summarizer" "summarizer" ltac:(auto)
                (routed_next _ _ _)) H2).
  - assert (Hempty : truthy (routed "fallback" "general" s0 !! "output") = false)
      by (rewrite routed_output; reflexivity).
    destruct (final_node_empty llm _ Hempty)
      as (lv & rmsg & o & Hf & Hfb & Hne & Htag & Herr).
    rewrite Hin in Hf, Hfb, Herr.
    exists "fallback", "general", msg, "[GENERAL]", (general_prompt input), lv, rmsg, o.
    eexists. split; [exact Hr |].
    split; [| split; [exact Hne | split; [exact Htag | split; [exact Herr |]]];
               right; right; repeat split; try reflexivity; exact Hfb].
    assert (H2 := walk_step _ 23 "final" LangGraph.END _ _ _ _ _ _ _
                    ltac:(discriminate) nodes_final Hf (successor_final _)
                    (walk_END _ _ _)).
    rewrite app_nil_r in H2.
    exact (walk_step _ 24 "router" "final" _ _ _ _ _ _ _
             ltac:(discriminate) nodes_router Hr
             (successor_router _ "fallback" "final" ltac:(auto)
                (routed_next _ _ _)) H2).
Qed.

End Graph.

(** ** One request *)

Section Request.

Lemma invoke_of_start (g : LangGraph.StateGraph) (state final : dict)
    (evs : list event) (vs : list LangGraph.visit) :
  LangGraph.start g state = (evs, inr (vs, final)) ->
  LangGraph.invoke g state = (evs, inr final) /\
  LangGraph.history g state = (evs, inr vs).
Proof.
  intros H. unfold LangGraph.invoke, LangGraph.history.
  rewrite H. run_M. now rewrite app_nil_r.
Qed.

Lemma run_returns (self : MistralAgent) (user_input : string)
    (evs : list event) (result : dict) :
  graph self (initial_state user_input) = (evs, inr result) ->
  run self user_input = (started user_input :: evs ++ [completed], inr result).
Proof. intros H. unfold run. run_M. rewrite H. reflexivity. Qed.

Lemma run_raises (self : MistralAgent) (user_input : string)
    (evs : list event) (e : Exception) :
  graph self (initial_state user_input) = (evs, inl e) ->
  run self user_input =
    (started user_input :: evs ++ [failed e], inr (error_state user_input e)).
Proof. intros H. unfold run. run_M. rewrite H. reflexivity. Qed.

Lemma prefix_clash (p q s : string) :
  startswith p q = false -> startswith q p = false ->
  has_prefix p s -> ~ has_prefix q s.
Proof.
  intros Hpq Hqp [t ->] [u Hu].
  revert q Hpq Hqp Hu. induction p as [|a p IH]; intros q Hpq Hqp Hu.
  - discriminate.
  - destruct q as [|b q]; [discriminate |].
    simpl in Hu. injection Hu as -> Hu.
    simpl in Hpq, Hqp. rewrite Ascii.eqb_refl in Hpq, Hqp.
    now apply (IH q).
Qed.

End Request.

(** C8: when the output is already non-empty, the final printer prints its
    block and returns the state it received, every entry as it was; the
    backend is not called. *)
Theorem C8_final_node_keeps_populated_state (llm : LLM) (state : dict)
    (output : string) :
  state !! "output" = Some output ->
  output <> "" ->
  final_node llm state = (printed state output, inr state) /\
  invocations (events (final_node llm state)) = 0.
Proof.
  intros H Hne. rewrite (final_node_populated llm state output H Hne).
  split; reflexivity.
Qed.

Lemma C8_witness :
  let state : dict :=
    {["input" := "2 + 2"; "output" := "[MATH] Math Solution: 4";
      "next" := "math"; "processing_type" := "mathematical"]} in
  state !! "output" = Some "[MATH] Math Solution: 4" /\
  "[MATH] Math Solution: 4" <> "" /\
  final_node (fun _ => inr "unused") state =
    (printed state "[MATH] Math Solution: 4", inr state) /\
  invocations (events (final_node (fun _ => inr "unused") state)) = 0.
Proof.
  intros state.
  assert (H1 : state !! "output" = Some "[MATH] Math Solution: 4")
    by (vm_compute; reflexivity).
  assert (H2 : "[MATH] Math Solution: 4" <> "") by discriminate.
  split; [exact H1 | split; [exact H2 |]].
  exact (C8_final_node_keeps_populated_state (fun _ => inr "unused") state _ H1 H2).
Defined.

(** C7: [run] never raises.  When the invocation of the graph raises, [run]
    logs the failure and returns a state whose route and processing type
    are "error" and whose output is the "[ERROR]" text with the
    exception's message. *)
Theorem C7_run_contains_graph_failure (self : MistralAgent) (user_input : string) :
  (exists evs result, run self user_input = (evs, inr result)) /\
  (forall evs e,
     graph self (initial_state user_input) = (evs, inl e) ->
     exists result output,
       run self user_input = (started user_input :: evs ++ [failed e], inr result) /\
       result !! "processing_type" = Some "error" /\
       result !! "next" = Some "error" /\
       result !! "input" = Some user_input /\
       result !! "output" = Some output /\
       output = "[ERROR] Agent Error: " +:+ str e /\
       output <> "" /\ has_prefix "[ERROR]" output /\ occurs_in (str e) output).
Proof.
  split.
  - destruct (graph self (initial_state user_input)) as [evs [e | result]] eqn:E.
    + eexists _, _. exact (run_raises _ _ _ _ E).
    + eexists _, _. exact (run_returns _ _ _ _ E).
  - intros evs e E.
    exists (error_state user_input e), ("[ERROR] Agent Error: " +:+ str e).
    split; [exact (run_raises _ _ _ _ E) |].
    repeat split; try reflexivity.
    + discriminate.
    + eexists. reflexivity.
    + eexists _, "". now rewrite append_nil_r.
Qed.

Lemma C7_witness :
  graph looping_agent (initial_state "hello") =
    (repeat (Log INFO "Router: Directing to fallback (final node)") 25,
     inl (mkException "GraphRecursionError")) /\
  exists result output,
    run looping_agent "hello" =
      (started "hello" ::
         repeat (Log INFO "Router: Directing to fallback (final node)") 25 ++
         [failed (mkException "GraphRecursionError")],
       inr result) /\
    result !! "processing_type" = Some "error" /\
    result !! "next" = Some "error" /\
    result !! "input" = Some "hello" /\
    result !! "output" = Some output /\
    output = "[ERROR] Agent Error: " +:+ str (mkException "GraphRecursionError") /\
    output <> "" /\ has_prefix "[ERROR]" output /\
    occurs_in (str (mkException "GraphRecursionError")) output.
Proof.
  assert (H : graph looping_agent (initial_state "hello") =
              (repeat (Log INFO "Router: Directing to fallback (final node)") 25,
               inl (mkException "GraphRecursionError")))
    by (vm_compute; reflexivity).
  split; [exact H |].
  exact (proj2 (C7_run_contains_graph_failure looping_agent "hello") _ _ H).
Defined.

(** ** The request as a whole *)

Section WholeRequest.

Variable llm : LLM.

(** What one request does with a working graph: it returns, with a
    non-empty output, after exactly one call of the backend. *)
Lemma run_cases (input : string) :
  exists n t msg tag prompt lv rmsg o middle,
    LangGraph.start (_build_graph llm) (initial_state input) =
      ([Log INFO msg; Invoke prompt; Log lv rmsg] ++
         printed (<["output" := o]> (routed n t (initial_state input))) o,
       inr (visited "router" (initial_state input)
              (routed n t (initial_state input)) :: middle,
            <["output" := o]> (routed n t (initial_state input)))) /\
    run (agent_of llm) input =
      (started input ::
         ([Log INFO msg; Invoke prompt; Log lv rmsg] ++
            printed (<["output" := o]> (routed n t (initial_state input))) o) ++
         [completed],
       inr (<["output" := o]> (routed n t (initial_state input)))) /\
    o <> "" /\
    (has_prefix tag o \/ has_prefix "[ERROR]" o) /\
    (forall e, llm prompt = inl e ->
       has_prefix "[ERROR]" o /\ occurs_in (str e) o) /\
    ((n = "math" /\ tag = "[MATH]" /\ prompt = math_prompt input) \/
     (n = "summarizer" /\ tag = "[SUMMARY]" /\
      prompt = summary_prompt (text_to_summarize input)) \/
     (n = "fallback" /\ tag = "[GENERAL]" /\ prompt = general_prompt input)).
Proof.
  destruct (start_cases llm input)
    as (n & t & msg & tag & prompt & lv & rmsg & o & middle &
        _ & Hs & Hne & Htag & Herr & Hcase).
  exists n, t, msg, tag, prompt, lv, rmsg, o, middle.
  split; [exact Hs |].
  split.
  - apply run_returns. exact (proj1 (invoke_of_start _ _ _ _ _ Hs)).
  - split; [exact Hne | split; [exact Htag | split; [exact Herr |]]].
    destruct Hcase as [(-> & _ & -> & -> & _) | [(-> & _ & -> & -> & _) |
                       (-> & _ & -> & -> & _)]]; auto 6.
Qed.

Lemma invocations_run (input msg prompt rmsg o : string) (lv : level) (state : dict) :
  invocations
    (started input ::
       ([Log INFO msg; Invoke prompt; Log lv rmsg] ++ printed state o) ++
       [completed]) = 1.
Proof. reflexivity. Qed.

Lemma invoke_in_run (input msg prompt rmsg o p : string) (lv : level) (state : dict) :
  In (Invoke p)
    (started input ::
       ([Log INFO msg; Invoke prompt; Log lv rmsg] ++ printed state o) ++
       [completed]) ->
  p = prompt.
Proof.
  unfold started, completed, printed. cbn [List.app In].
  intros H. repeat (destruct H as [H | H]; [try discriminate |]).
  - now injection H.
  - destruct H.
Qed.

End WholeRequest.

(** C4: an exception the backend raises inside a responder does not leave
    it: the math node, the summarizer node and the fallback branch of the
    final node each return the state with the output set to a text that
    begins with "[ERROR]" and contains the exception's message; and a
    request on the built graph always returns, with a non-empty output,
    which is that error text when the backend call raised. *)
Theorem C4_backend_exception_becomes_output (llm : LLM) (e : Exception) :
  (forall state : dict,
     llm (math_prompt (get state "input" "")) = inl e ->
     exists evs output,
       math_node llm state = (evs, inr (<["output" := output]> state)) /\
       has_prefix "[ERROR]" output /\ occurs_in (str e) output /\ output <> "") /\
  (forall state : dict,
     llm (summary_prompt (text_to_summarize (get state "input" ""))) = inl e ->
     exists evs output,
       summarizer_node llm state = (evs, inr (<["output" := output]> state)) /\
       has_prefix "[ERROR]" output /\ occurs_in (str e) output /\ output <> "") /\
  (forall state : dict,
     truthy (state !! "output") = false ->
     llm (general_prompt (get state "input" "")) = inl e ->
     exists evs output,
       final_node llm state = (evs, inr (<["output" := output]> state)) /\
       has_prefix "[ERROR]" output /\ occurs_in (str e) output /\ output <> "") /\
  (forall input : string,
     exists evs result output,
       run (agent_of llm) input = (evs, inr result) /\
       result !! "output" = Some output /\ output <> "" /\
       invocations evs = 1 /\
       (forall prompt, In (Invoke prompt) evs -> llm prompt = inl e ->
          has_prefix "[ERROR]" output /\ occurs_in (str e) output)).
Proof.
  split; [| split; [| split]].
  - intros state H.
    destruct (math_node_responded llm state) as (lv & msg & o & Hm & Hne & _ & Herr).
    destruct (Herr e H) as [Hp Ho].
    eexists _, o. split; [eassumption | auto].
  - intros state H.
    destruct (summarizer_node_responded llm state)
      as (lv & msg & o & Hm & Hne & _ & Herr).
    destruct (Herr e H) as [Hp Ho].
    eexists _, o. split; [eassumption | auto].
  - intros state Hempty H.
    destruct (final_node_empty llm state Hempty)
      as (lv & msg & o & Hf & _ & Hne & _ & Herr).
    destruct (Herr e H) as [Hp Ho].
    eexists _, o. split; [eassumption | auto].
  - intros input.
    destruct (run_cases llm input)
      as (n & t & msg & tag & prompt & lv & rmsg & o & middle &
          _ & Hrun & Hne & _ & Herr & _).
    eexists _, _, o. split; [exact Hrun |].
    split; [now simplify_map_eq |].
    split; [exact Hne |].
    split; [apply invocations_run |].
    intros p Hin Hp. apply invoke_in_run in Hin as ->. now apply Herr.
Qed.

Lemma C4_witness :
  let down : LLM := fun _ => inl (mkException "connection refused") in
  let e := mkException "connection refused" in
  (exists evs output,
     math_node down (initial_state "2 + 2") =
       (evs, inr (<["output" := output]> (initial_state "2 + 2"))) /\
     has_prefix "[ERROR]" output /\ occurs_in (str e) output /\ output <> "") /\
  (exists evs output,
     summarizer_node down (initial_state "Summarize: x") =
       (evs, inr (<["output" := output]> (initial_state "Summarize: x"))) /\
     has_prefix "[ERROR]" output /\ occurs_in (str e) output /\ output <> "") /\
  (exists evs output,
     final_node down (initial_state "Hello") =
       (evs, inr (<["output" := output]> (initial_state "Hello"))) /\
     has_prefix "[ERROR]" output /\ occurs_in (str e) output /\ output <> "").
Proof.
  intros down e.
  pose (T := C4_backend_exception_becomes_output down e).
  split; [| split].
  - apply (proj1 T (initial_state "2 + 2")). reflexivity.
  - apply (proj1 (proj2 T) (initial_state "Summarize: x")). reflexivity.
  - apply (proj1 (proj2 (proj2 T)) (initial_state "Hello")); reflexivity.
Defined.

Lemma writes_same (k name : string) (received returned : dict) :
  received !! k = returned !! k ->
  writes k (visited name received returned) = false.
Proof.
  intros H. unfold writes, visited. cbn [LangGraph.before LangGraph.after].
  now rewrite bool_decide_eq_true_2.
Qed.

Lemma writes_changed (k name : string) (received returned : dict) :
  received !! k <> returned !! k ->
  writes k (visited name received returned) = true.
Proof.
  intros H. unfold writes, visited. cbn [LangGraph.before LangGraph.after].
  now rewrite bool_decide_eq_false_2.
Qed.

(** C6: on the built graph a request starts with an empty output and
    executes the router first, which sets the route and the processing
    type and leaves the output empty; the backend is called once, after
    the router's record.  Then the math node or the summarizer node, when
    the route names it, writes the output and the final node returns the
    state as it is; on the fallback route no node stands between the
    router and the final node, which then writes the output itself.
    Exactly one executed node changes the output, and it ends non-empty. *)
Theorem C6_router_first_one_writer (llm : LLM) (input : string) :
  initial_state input !! "output" = Some "" /\
  exists evs msg tl classified final output rest,
    LangGraph.history (_build_graph llm) (initial_state input) =
      (evs, inr (visited "router" (initial_state input) classified :: rest)) /\
    LangGraph.invoke (_build_graph llm) (initial_state input) = (evs, inr final) /\
    router_node (initial_state input) = ([Log INFO msg], inr classified) /\
    evs = Log INFO msg :: tl /\ invocations tl = 1 /\
    classified !! "output" = Some "" /\
    final !! "output" = Some output /\ output <> "" /\
    ((classified !! "next" = Some "math" /\
      classified !! "processing_type" = Some "mathematical" /\
      outcome (math_node llm classified) = inr final /\
      rest = [visited "math" classified final; visited "final" final final]) \/
     (classified !! "next" = Some "summarizer" /\
      classified !! "processing_type" = Some "summarization" /\
      outcome (summarizer_node llm classified) = inr final /\
      rest = [visited "summarizer" classified final; visited "final" final final]) \/
     (classified !! "next" = Some "fallback" /\
      classified !! "processing_type" = Some "general" /\
      outcome (fallback llm classified) = inr final /\
      rest = [visited "final" classified final])) /\
    length (List.filter (writes "output")
              (visited "router" (initial_state input) classified :: rest)) = 1.
Proof.
  split; [reflexivity |].
  destruct (start_cases llm input)
    as (n & t & msg & tag & prompt & lv & rmsg & o & middle &
        Hr & Hs & Hne & _ & _ & Hcase).
  destruct (invoke_of_start _ _ _ _ _ Hs) as [Hinv Hhist].
  set (s0 := initial_state input) in *.
  set (s1 := routed n t s0) in *.
  set (s2 := <["output" := o]> s1) in *.
  assert (H1 : s1 !! "output" = Some "") by (unfold s1; now rewrite routed_output).
  assert (H2 : s2 !! "output" = Some o) by (unfold s2; now simplify_map_eq).
  assert (W0 : writes "output" (visited "router" s0 s1) = false)
    by (apply writes_same; now rewrite H1).
  assert (W1 : forall name, writes "output" (visited name s1 s2) = true).
  { intros name. apply writes_changed. rewrite H1, H2. congruence. }
  assert (W2 : writes "output" (visited "final" s2 s2) = false)
    by now apply writes_same.
  exists ([Log INFO msg; Invoke prompt; Log lv rmsg] ++ printed s2 o), msg,
    ([Invoke prompt; Log lv rmsg] ++ printed s2 o), s1, s2, o, middle.
  split; [exact Hhist |]. split; [exact Hinv |]. split; [exact Hr |].
  split; [reflexivity |]. split; [reflexivity |].
  split; [exact H1 |]. split; [exact H2 |]. split; [exact Hne |].
  destruct Hcase as [(-> & -> & _ & _ & Hm & ->) | [(-> & -> & _ & _ & Hm & ->) |
                     (-> & -> & _ & _ & Hm & ->)]].
  - split.
    + left. unfold s1 at 1 2. rewrite routed_next, routed_processing_type.
      unfold outcome. fold s0 s1 s2 in Hm. now rewrite Hm.
    + cbn [List.filter]. rewrite W0, W1, W2. reflexivity.
  - split.
    + right; left. unfold s1 at 1 2. rewrite routed_next, routed_processing_type.
      unfold outcome. fold s0 s1 s2 in Hm. now rewrite Hm.
    + cbn [List.filter]. rewrite W0, W1, W2. reflexivity.
  - split.
    + right; right. unfold s1 at 1 2. rewrite routed_next, routed_processing_type.
      unfold outcome. fold s0 s1 s2 in Hm. now rewrite Hm.
    + cbn [List.filter]. rewrite W0, W1. reflexivity.
Qed.

Lemma math_prompt_not_general (a b : string) : math_prompt a <> general_prompt b.
Proof. unfold math_prompt, general_prompt. intros H. vm_compute in H. discriminate. Qed.

Lemma summary_prompt_not_general (a b : string) :
  summary_prompt a <> general_prompt b.
Proof. unfold summary_prompt, general_prompt. intros H. vm_compute in H. discriminate. Qed.

Lemma not_general_tag (tag o : string) :
  tag = "[MATH]" \/ tag = "[SUMMARY]" ->
  has_prefix tag o \/ has_prefix "[ERROR]" o ->
  ~ has_prefix "[GENERAL]" o.
Proof.
  intros Htag [H | H].
  - destruct Htag as [-> | ->]; revert H; now apply prefix_clash.
  - revert H. now apply prefix_clash.
Qed.

(** C10: the math node and the summarizer node return a state whose output
    is non-empty and does not begin with "[GENERAL]", whether the backend
    replied or raised, and the final node run on that state prints it and
    returns it without calling the backend.  So a request routed to "math"
    or "summarizer" never sends the general prompt, and a request whose
    output begins with "[GENERAL]" was routed to "fallback". *)
Theorem C10_general_only_on_fallback (llm : LLM) :
  (forall state : dict,
     exists evs state' output,
       math_node llm state = (evs, inr state') /\
       state' !! "output" = Some output /\ output <> "" /\
       ~ has_prefix "[GENERAL]" output /\
       final_node llm state' = (printed state' output, inr state')) /\
  (forall state : dict,
     exists evs state' output,
       summarizer_node llm state = (evs, inr state') /\
       state' !! "output" = Some output /\ output <> "" /\
       ~ has_prefix "[GENERAL]" output /\
       final_node llm state' = (printed state' output, inr state')) /\
  (forall input : string,
     exists evs result output,
       run (agent_of llm) input = (evs, inr result) /\
       result !! "output" = Some output /\
       (result !! "next" = Some "math" \/ result !! "next" = Some "summarizer" ->
        invocations evs = 1 /\
        ~ In (Invoke (general_prompt input)) evs /\
        ~ has_prefix "[GENERAL]" output) /\
       (has_prefix "[GENERAL]" output -> result !! "next" = Some "fallback")).
Proof.
  split; [| split].
  - intros state.
    destruct (math_node_responded llm state) as (lv & msg & o & Hm & Hne & Htag & _).
    eexists _, _, o. split; [exact Hm |].
    assert (Ho : <["output" := o]> state !! "output" = Some o) by now simplify_map_eq.
    split; [exact Ho |]. split; [exact Hne |].
    split; [apply (not_general_tag "[MATH]"); auto |].
    now apply final_node_populated.
  - intros state.
    destruct (summarizer_node_responded llm state)
      as (lv & msg & o & Hm & Hne & Htag & _).
    eexists _, _, o. split; [exact Hm |].
    assert (Ho : <["output" := o]> state !! "output" = Some o) by now simplify_map_eq.
    split; [exact Ho |]. split; [exact Hne |].
    split; [apply (not_general_tag "[SUMMARY]"); auto |].
    now apply final_node_populated.
  - intros input.
    destruct (run_cases llm input)
      as (n & t & msg & tag & prompt & lv & rmsg & o & middle &
          _ & Hrun & Hne & Htag & _ & Hcase).
    eexists _, _, o. split; [exact Hrun |].
    split; [now simplify_map_eq |].
    assert (Hn : <["output" := o]> (routed n t (initial_state input)) !! "next" = Some n).
    { rewrite lookup_insert_ne by discriminate. apply routed_next. }
    rewrite Hn.
    destruct Hcase as [(-> & -> & ->) | [(-> & -> & ->) | (-> & -> & ->)]].
    + split.
      * intros _. split; [apply invocations_run |]. split.
        -- intros Hin. apply invoke_in_run in Hin.
           now apply (math_prompt_not_general input input).
        -- apply (not_general_tag "[MATH]"); auto.
      * intros Hg. now destruct (not_general_tag "[MATH]" o (or_introl eq_refl) Htag).
    + split.
      * intros _. split; [apply invocations_run |]. split.
        -- intros Hin. apply invoke_in_run in Hin.
           now apply (summary_prompt_not_general (text_to_summarize input) input).
        -- apply (not_general_tag "[SUMMARY]"); auto.
      * intros Hg. now destruct (not_general_tag "[SUMMARY]" o (or_intror eq_refl) Htag).
    + split; [| reflexivity].
      intros [H | H]; discriminate.
Qed.

(** ** The scenarios of the specification, evaluated *)

Section Scenarios.

Let replies (text : string) : LLM := fun _ => inr text.
Let down : LLM := fun _ => inl (mkException "connection refused").

Example scenario_math :
  outcome (run (agent_of (replies "60")) "What is 15 + 25 * 3?") =
    inr (<["output" := "[MATH] Math Solution:" +:+ nl +:+ "60"]>
           (routed "math" "mathematical" (initial_state "What is 15 + 25 * 3?"))).
Proof. vm_compute. reflexivity. Qed.

Example scenario_summarize :
  outcome (run (agent_of (replies "It accreted."))
             "Summarize: how is earth formed?") =
    inr (<["output" := "[SUMMARY] Summary:" +:+ nl +:+ "It accreted."]>
           (routed "summarizer" "summarization"
              (initial_state "Summarize: how is earth formed?"))).
Proof. vm_compute. reflexivity. Qed.

Example scenario_general :
  outcome (run (agent_of (replies "Fine."))
             "Hello, how are you doing today?") =
    inr (<["output" := "[GENERAL] General Response:" +:+ nl +:+ "Fine."]>
           (routed "fallback" "general"
              (initial_state "Hello, how are you doing today?"))).
Proof. vm_compute. reflexivity. Qed.

Example scenario_backend_down :
  outcome (run (agent_of down) "Hello, how are you doing today?") =
    inr (<["output" := "[ERROR] Error: Could not process your request. Error: connection refused"]>
           (routed "fallback" "general"
              (initial_state "Hello, how are you doing today?"))).
Proof. vm_compute. reflexivity. Qed.

Example scenario_hyphen_is_math :
  outcome (router_node (initial_state "state-of-the-art")) =
    inr (routed "math" "mathematical" (initial_state "state-of-the-art")).
Proof. vm_compute. reflexivity. Qed.

Example scenario_no_word_boundary :
  text_to_summarize "summarizer x" = "r x".
Proof. reflexivity. Qed.

End Scenarios.

(** * Further properties of the code *)

(** ** The prefix removal, continued *)

Section PrefixMore.

Lemma match_many_cons (ic : bool) (a : Re.atom) (p : list Re.item)
    (c : ascii) (s : string) :
  Re.match_here ic (Re.Many a :: p) (String c s) =
    if Re.atom_matches ic a c then
      match Re.match_here ic (Re.Many a :: p) s with
      | Some r => Some r
      | None => Re.match_here ic p (String c s)
      end
    else Re.match_here ic p (String c s).
Proof. reflexivity. Qed.

Lemma match_many_nil (ic : bool) (a : Re.atom) (p : list Re.item) :
  Re.match_here ic (Re.Many a :: p) "" = Re.match_here ic p "".
Proof. reflexivity. Qed.

(** What a match leaves is the end of the text it was tried on. *)
Lemma match_here_suffix (ic : bool) (p : list Re.item) (s r : string) :
  Re.match_here ic p s = Some r -> exists consumed, s = consumed +:+ r.
Proof.
  revert s r. induction p as [|it p IH]; intros s r H.
  - injection H as <-. now exists "".
  - destruct it as [a | a | a].
    + destruct s as [|c s]; [discriminate |]. simpl in H.
      destruct (Re.atom_matches ic a c); [| discriminate].
      destruct (IH _ _ H) as [pre ->]. now exists (String c pre).
    + simpl in H. destruct s as [|c s]; [now apply IH |].
      destruct (Re.atom_matches ic a c); [| now apply IH].
      destruct (Re.match_here ic p s) as [r'|] eqn:E; [| now apply IH].
      injection H as <-. destruct (IH _ _ E) as [pre ->]. now exists (String c pre).
    + induction s as [|c s IHs].
      * rewrite match_many_nil in H. now apply IH.
      * rewrite match_many_cons in H.
        destruct (Re.atom_matches ic a c); [| now apply IH].
        destruct (Re.match_here ic (Re.Many a :: p) s) as [r'|] eqn:E;
          [| now apply IH].
        injection H as <-. destruct (IHs eq_refl) as [pre ->].
        now exists (String c pre).
Qed.

Lemma length_append (a b : string) :
  String.length (a +:+ b) = String.length a + String.length b.
Proof. induction a as [|c a IH]; simpl; [reflexivity | now rewrite IH]. Qed.

Lemma lstrip_first (s : string) :
  lstrip s = "" \/ exists c t, lstrip s = String c t /\ isspace c = false.
Proof.
  induction s as [|c s IH]; [now left |].
  simpl. destruct (isspace c) eqn:E; [exact IH |].
  right. now exists c, s.
Qed.

End PrefixMore.

(** X1: the text the summarizer passes on is an end piece of the input:
    the removal drops characters at the start only, so the text is never
    longer than the input and nothing is added to it. *)
Theorem X1_text_to_summarize_is_suffix (user_input : string) :
  (exists removed, user_input = removed +:+ text_to_summarize user_input) /\
  String.length (text_to_summarize user_input) <= String.length user_input.
Proof.
  assert (H : exists removed, user_input = removed +:+ text_to_summarize user_input).
  { unfold text_to_summarize, Re.sub_anchored.
    destruct (Re.match_here true summarize_prefix user_input) as [r|] eqn:E.
    - destruct (match_here_suffix _ _ _ _ E) as [pre ->]. now exists pre.
    - exists "". reflexivity. }
  split; [exact H |].
  destruct H as [removed H]. rewrite H at 2. rewrite length_append. lia.
Qed.

(** X2: when the input begins with the token, the text passed on is empty
    or begins with a character that is not whitespace. *)
Theorem X2_text_after_token_has_no_leading_blank (tok rest : string) :
  lower tok = "summarize" ->
  text_to_summarize (tok +:+ rest) = "" \/
  exists c t, text_to_summarize (tok +:+ rest) = String c t /\ isspace c = false.
Proof.
  intros H. rewrite (text_to_summarize_token _ _ H). apply lstrip_first.
Qed.

Lemma X2_witness :
  lower "Summarize" = "summarize" /\
  (text_to_summarize ("Summarize" +:+ ":   how is earth formed?") = "" \/
   exists c t,
     text_to_summarize ("Summarize" +:+ ":   how is earth formed?") = String c t /\
     isspace c = false).
Proof.
  assert (H : lower "Summarize" = "summarize") by reflexivity.
  split; [exact H |].
  exact (X2_text_after_token_has_no_leading_blank "Summarize"
           ":   how is earth formed?" H).
Defined.

(** ** The router, continued *)

Section RouterMore.

Lemma lower_char_idem (c : ascii) : lower_char (lower_char c) = lower_char c.
Proof. destruct c as [[] [] [] [] [] [] [] []]; reflexivity. Qed.

Lemma lower_idem (s : string) : lower (lower s) = lower s.
Proof.
  induction s as [|c s IH]; [reflexivity |].
  simpl. now rewrite lower_char_idem, IH.
Qed.

Lemma router_node_same_lower (s1 s2 : dict) :
  lower (get s1 "input" "") = lower (get s2 "input" "") ->
  exists evs n t,
    router_node s1 = (evs, inr (routed n t s1)) /\
    router_node s2 = (evs, inr (routed n t s2)).
Proof.
  intros H. unfold router_node. rewrite <- H.
  destruct (any_in math_patterns (lower (get s1 "input" "")));
    [| destruct (any_in summary_keywords (lower (get s1 "input" "")))];
    eexists _, _, _; split; reflexivity.
Qed.

End RouterMore.

(** X3: the router does not see letter case: two states whose inputs have
    the same lower-cased form get the same log record, route and
    processing type; so does a state and the state with its input
    lower-cased beforehand. *)
Theorem X3_routing_ignores_letter_case :
  (forall s1 s2 : dict,
     lower (get s1 "input" "") = lower (get s2 "input" "") ->
     exists evs r1 r2,
       router_node s1 = (evs, inr r1) /\ router_node s2 = (evs, inr r2) /\
       r1 !! "next" = r2 !! "next" /\
       r1 !! "processing_type" = r2 !! "processing_type") /\
  (forall s : dict,
     exists evs r1 r2,
       router_node s = (evs, inr r1) /\
       router_node (<["input" := lower (get s "input" "")]> s) = (evs, inr r2) /\
       r1 !! "next" = r2 !! "next" /\
       r1 !! "processing_type" = r2 !! "processing_type").
Proof.
  assert (G : forall s1 s2 : dict,
            lower (get s1 "input" "") = lower (get s2 "input" "") ->
            exists evs r1 r2,
              router_node s1 = (evs, inr r1) /\ router_node s2 = (evs, inr r2) /\
              r1 !! "next" = r2 !! "next" /\
              r1 !! "processing_type" = r2 !! "processing_type").
  { intros s1 s2 H.
    destruct (router_node_same_lower s1 s2 H) as (evs & n & t & H1 & H2).
    exists evs, (routed n t s1), (routed n t s2).
    split; [exact H1 | split; [exact H2 |]].
    now rewrite !routed_next, !routed_processing_type. }
  split; [exact G |].
  intros s. apply G.
  assert (E : get (<["input" := lower (get s "input" "")]> s) "input" "" =
              lower (get s "input" ""))
    by (unfold get at 1; now rewrite lookup_insert_eq).
  now rewrite E, lower_idem.
Qed.

Lemma X3_witness :
  lower (get {["input" := "SUM UP the report"]} "input" "") =
    lower (get {["input" := "sum up THE REPORT"]} "input" "") /\
  exists evs r1 r2,
    router_node {["input" := "SUM UP the report"]} = (evs, inr r1) /\
    router_node {["input" := "sum up THE REPORT"]} = (evs, inr r2) /\
    r1 !! "next" = r2 !! "next" /\
    r1 !! "processing_type" = r2 !! "processing_type".
Proof.
  assert (H : lower (get {["input" := "SUM UP the report"]} "input" "") =
              lower (get {["input" := "sum up THE REPORT"]} "input" ""))
    by (vm_compute; reflexivity).
  split; [exact H |].
  exact (proj1 X3_routing_ignores_letter_case _ _ H).
Defined.

(** X4: for every state the router returns; it changes no key other than
    "next" and "processing_type", which it overwrites with one of the three
    pairs math/mathematical, summarizer/summarization, fallback/general;
    and the route it leaves is always one the conditional edges of the
    graph map to a registered node. *)
Theorem X4_router_frame_and_routes (state : dict) :
  exists msg state',
    router_node state = ([Log INFO msg], inr state') /\
    (forall k, k <> "next" -> k <> "processing_type" -> state' !! k = state !! k) /\
    ((state' !! "next" = Some "math" /\
      state' !! "processing_type" = Some "mathematical") \/
     (state' !! "next" = Some "summarizer" /\
      state' !! "processing_type" = Some "summarization") \/
     (state' !! "next" = Some "fallback" /\
      state' !! "processing_type" = Some "general")) /\
    exists target,
      route_target (decide_next_node state') = Some target /\
      forall llm,
        LangGraph.successor (_build_graph llm) "router" state' = mret target /\
        is_Some (LangGraph.nodes (_build_graph llm) !! target).
Proof.
  destruct (router_node_cases state) as (n & t & msg & Hr & Hnt).
  exists msg, (routed n t state). split; [exact Hr |].
  split.
  { intros k H1 H2. unfold routed. now rewrite !lookup_insert_ne by congruence. }
  rewrite routed_next, routed_processing_type.
  unfold decide_next_node, get. rewrite routed_next. cbn [default].
  destruct Hnt as [[= -> ->] | [[= -> ->] | [= -> ->]]].
  - split; [auto |]. exists "math". split; [reflexivity |].
    intros llm. split; [| now eexists].
    apply (successor_router llm _ "math"); [auto | apply routed_next].
  - split; [auto |]. exists "summarizer". split; [reflexivity |].
    intros llm. split; [| now eexists].
    apply (successor_router llm _ "summarizer"); [auto | apply routed_next].
  - split; [auto 6 |]. exists "final". split; [reflexivity |].
    intros llm. split; [| now eexists].
    apply (successor_router llm _ "fallback"); [auto | apply routed_next].
Qed.

(** ** The graph on any state *)

Section GraphMore.

Variable llm : LLM.

Lemma invocations_app (a b : list event) :
  invocations (a ++ b) = invocations a + invocations b.
Proof. unfold invocations. now rewrite List.filter_app, length_app. Qed.

Lemma invocations_printed (state : dict) (o : string) :
  invocations (printed state o) = 0.
Proof. reflexivity. Qed.

(** The run through the math node. *)
Lemma start_math (state s1 s2 : dict) (msg o : string) (evs : list event) :
  router_node state = ([Log INFO msg], inr s1) ->
  s1 !! "next" = Some "math" ->
  math_node llm s1 = (evs, inr s2) ->
  s2 !! "output" = Some o -> o <> "" ->
  LangGraph.start (_build_graph llm) state =
    ([Log INFO msg] ++ evs ++ printed s2 o,
     inr ([visited "router" state s1; visited "math" s1 s2;
           visited "final" s2 s2], s2)).
Proof.
  intros Hr Hn Hm Ho Hne.
  assert (H3 := walk_final_populated llm 22 s2 o Ho Hne).
  assert (H2 := walk_step _ 23 "math" "final" _ _ _ _ _ _ _
                  ltac:(discriminate) (nodes_math llm) Hm (successor_math llm _) H3).
  exact (walk_step _ 24 "router" "math" _ _ _ _ _ _ _
           ltac:(discriminate) (nodes_router llm) Hr
           (successor_router llm _ "math" "math" ltac:(auto) Hn) H2).
Qed.

(** The run through the summarizer node. *)
Lemma start_summarizer (state s1 s2 : dict) (msg o : string) (evs : list event) :
  router_node state = ([Log INFO msg], inr s1) ->
  s1 !! "next" = Some "summarizer" ->
  summarizer_node llm s1 = (evs, inr s2) ->
  s2 !! "output" = Some o -> o <> "" ->
  LangGraph.start (_build_graph llm) state =
    ([Log INFO msg] ++ evs ++ printed s2 o,
     inr ([visited "router" state s1; visited "summarizer" s1 s2;
           visited "final" s2 s2], s2)).
Proof.
  intros Hr Hn Hm Ho Hne.
  assert (H3 := walk_final_populated llm 22 s2 o Ho Hne).
  assert (H2 := walk_step _ 23 "summarizer" "final" _ _ _ _ _ _ _
                  ltac:(discriminate) (nodes_summarizer llm) Hm
                  (successor_summarizer llm _) H3).
  exact (walk_step _ 24 "router" "summarizer" _ _ _ _ _ _ _
           ltac:(discriminate) (nodes_router llm) Hr
           (successor_router llm _ "summarizer" "summarizer" ltac:(auto) Hn) H2).
Qed.

(** The run that goes from the router to the final node. *)
Lemma start_fallback (state s1 s2 : dict) (msg : string) (evs : list event) :
  router_node state = ([Log INFO msg], inr s1) ->
  s1 !! "next" = Some "fallback" ->
  final_node llm s1 = (evs, inr s2) ->
  LangGraph.start (_build_graph llm) state =
    ([Log INFO msg] ++ evs,
     inr ([visited "router" state s1; visited "final" s1 s2], s2)).
Proof.
  intros Hr Hn Hf.
  assert (H2 := walk_step _ 23 "final" LangGraph.END _ _ _ _ _ _ _
                  ltac:(discriminate) (nodes_final llm) Hf (successor_final llm _)
                  (walk_END _ _ _)).
  rewrite app_nil_r in H2.
  exact (walk_step _ 24 "router" "final" _ _ _ _ _ _ _
           ltac:(discriminate) (nodes_router llm) Hr
           (successor_router llm _ "fallback" "final" ltac:(auto) Hn) H2).
Qed.

Lemma truthy_cases (v : option string) :
  (truthy v = true /\ exists o, v = Some o /\ o <> "") \/ truthy v = false.
Proof.
  destruct v as [[|c o]|]; [now right | | now right].
  left. split; [reflexivity |]. now eexists.
Qed.

(** The final node on any state: it returns, with a non-empty output, and
    calls the backend only when it found none. *)
Lemma final_node_any (state : dict) :
  exists evs state' o,
    final_node llm state = (evs, inr state') /\
    state' !! "output" = Some o /\ o <> "" /\
    (forall k, k <> "output" -> state' !! k = state !! k) /\
    invocations evs = (if truthy (state !! "output") then 0 else 1) /\
    (truthy (state !! "output") = true -> state' = state).
Proof.
  destruct (truthy_cases (state !! "output")) as [[Ht (o & Ho & Hne)] | Ht].
  - exists (printed state o), state, o.
    split; [now apply final_node_populated |].
    rewrite Ht. auto.
  - destruct (final_node_empty llm state Ht) as (lv & msg & o & Hf & _ & Hne & _ & _).
    eexists _, _, o. split; [exact Hf |].
    split; [now simplify_map_eq |]. split; [exact Hne |].
    split; [intros k Hk; now rewrite lookup_insert_ne by congruence |].
    rewrite Ht. split; [reflexivity | discriminate].
Qed.

(** The graph on any state. *)
Lemma start_any (state : dict) :
  exists evs vs final o n t,
    LangGraph.start (_build_graph llm) state = (evs, inr (vs, final)) /\
    final !! "output" = Some o /\ o <> "" /\
    final !! "next" = Some n /\ final !! "processing_type" = Some t /\
    (forall k, k <> "next" -> k <> "processing_type" -> k <> "output" ->
       final !! k = state !! k) /\
    length vs <= 3 /\
    invocations evs =
      (if (String.eqb n "fallback" && truthy (state !! "output"))%bool
       then 0 else 1) /\
    (n = "fallback" -> truthy (state !! "output") = true ->
     final !! "output" = state !! "output").
Proof.
  destruct (router_node_cases state) as (n & t & msg & Hr & Hnt).
  assert (Hframe : forall (s2 : dict) k,
            (forall k, k <> "output" -> s2 !! k = routed n t state !! k) ->
            k <> "next" -> k <> "processing_type" -> k <> "output" ->
            s2 !! k = state !! k).
  { intros s2 k H H1 H2 H3. rewrite H by exact H3.
    unfold routed. now rewrite !lookup_insert_ne by congruence. }
  assert (Hins : forall (o : string) k, k <> "output" ->
            <["output" := o]> (routed n t state) !! k = routed n t state !! k).
  { intros o k Hk. now rewrite lookup_insert_ne by congruence. }
  destruct Hnt as [[= -> ->] | [[= -> ->] | [= -> ->]]].
  - destruct (math_node_responded llm (routed "math" "mathematical" state))
      as (lv & rmsg & o & Hm & Hne & _ & _).
    assert (Ho : <["output" := o]> (routed "math" "mathematical" state) !! "output"
                 = Some o) by now simplify_map_eq.
    eexists _, _, _, o, "math", "mathematical".
    split; [exact (start_math _ _ _ _ _ _ Hr (routed_next _ _ _) Hm Ho Hne) |].
    split; [exact Ho |]. split; [exact Hne |].
    split; [rewrite Hins by discriminate; apply routed_next |].
    split; [rewrite Hins by discriminate; apply routed_processing_type |].
    split; [intros k; apply Hframe; apply Hins |].
    split; [cbn; lia |]. split; [reflexivity | discriminate].
  - destruct (summarizer_node_responded llm (routed "summarizer" "summarization" state))
      as (lv & rmsg & o & Hm & Hne & _ & _).
    assert (Ho : <["output" := o]> (routed "summarizer" "summarization" state)
                   !! "output" = Some o) by now simplify_map_eq.
    eexists _, _, _, o, "summarizer", "summarization".
    split; [exact (start_summarizer _ _ _ _ _ _ Hr (routed_next _ _ _) Hm Ho Hne) |].
    split; [exact Ho |]. split; [exact Hne |].
    split; [rewrite Hins by discriminate; apply routed_next |].
    split; [rewrite Hins by discriminate; apply routed_processing_type |].
    split; [intros k; apply Hframe; apply Hins |].
    split; [cbn; lia |]. split; [reflexivity | discriminate].
  - destruct (final_node_any (routed "fallback" "general" state))
      as (evs & s2 & o & Hf & Ho & Hne & Hk & Hinv & Hsame).
    rewrite routed_output in Hinv, Hsame.
    eexists _, _, s2, o, "fallback", "general".
    split; [exact (start_fallback _ _ _ _ _ Hr (routed_next _ _ _) Hf) |].
    split; [exact Ho |]. split; [exact Hne |].
    split; [rewrite Hk by discriminate; apply routed_next |].
    split; [rewrite Hk by discriminate; apply routed_processing_type |].
    split; [intros k; apply Hframe; exact Hk |].
    split; [cbn; lia |].
    split.
    + rewrite invocations_app, Hinv. reflexivity.
    + intros _ Ht. rewrite (Hsame Ht). apply routed_output.
Qed.

End GraphMore.

(** X5: the built graph can be invoked on any state, whatever keys it
    holds: the invocation returns and never raises, executes at most three
    nodes, calls the backend at most once, ends with a non-empty output
    and with the route and processing type set, and leaves every other
    key as it was. *)
Theorem X5_graph_runs_on_any_state (llm : LLM) (state : dict) :
  exists evs vs final output,
    LangGraph.invoke (_build_graph llm) state = (evs, inr final) /\
    LangGraph.history (_build_graph llm) state = (evs, inr vs) /\
    length vs <= 3 /\
    invocations evs <= 1 /\
    final !! "output" = Some output /\ output <> "" /\
    is_Some (final !! "next") /\ is_Some (final !! "processing_type") /\
    (forall k, k <> "next" -> k <> "processing_type" -> k <> "output" ->
       final !! k = state !! k).
Proof.
  destruct (start_any llm state)
    as (evs & vs & final & o & n & t & Hs & Ho & Hne & Hn & Ht & Hk & Hlen & Hinv & _).
  destruct (invoke_of_start _ _ _ _ _ Hs) as [Hi Hh].
  exists evs, vs, final, o.
  split; [exact Hi |]. split; [exact Hh |]. split; [exact Hlen |].
  split; [rewrite Hinv; destruct (_ && _)%bool; lia |].
  split; [exact Ho |]. split; [exact Hne |].
  split; [exists n; exact Hn |]. split; [exists t; exact Ht | exact Hk].
Qed.

(** X6: a state that arrives with a non-empty output keeps it on the
    fallback route, where the backend is then not called at all; on the
    math and summarizer routes the backend is called once and the earlier
    output is overwritten. *)
Theorem X6_preset_output (llm : LLM) (state : dict) (preset : string) :
  state !! "output" = Some preset ->
  preset <> "" ->
  exists evs final,
    LangGraph.invoke (_build_graph llm) state = (evs, inr final) /\
    ((final !! "next" = Some "fallback" /\
      invocations evs = 0 /\ final !! "output" = Some preset) \/
     ((final !! "next" = Some "math" \/ final !! "next" = Some "summarizer") /\
      invocations evs = 1 /\
      exists lv msg prompt written,
        In (Invoke prompt) evs /\ final !! "output" = Some written /\
        (math_node llm (routed "math" "mathematical" state) =
           ([Invoke prompt; Log lv msg],
            inr (<["output" := written]> (routed "math" "mathematical" state))) \/
         summarizer_node llm (routed "summarizer" "summarization" state) =
           ([Invoke prompt; Log lv msg],
            inr (<["output" := written]>
                   (routed "summarizer" "summarization" state)))))).
Proof.
  intros Hp Hne.
  assert (Ht : truthy (state !! "output") = true) by now apply (truthy_nonempty _ preset).
  destruct (router_node_cases state) as (n & t & msg & Hr & Hnt).
  destruct Hnt as [[= -> ->] | [[= -> ->] | [= -> ->]]].
  - destruct (math_node_responded llm (routed "math" "mathematical" state))
      as (lv & rmsg & o & Hm & Hne' & _ & _).
    assert (Ho : <["output" := o]> (routed "math" "mathematical" state) !! "output"
                 = Some o) by now simplify_map_eq.
    assert (Hs := start_math llm _ _ _ _ _ _ Hr (routed_next _ _ _) Hm Ho Hne').
    eexists _, _. split; [exact (proj1 (invoke_of_start _ _ _ _ _ Hs)) |].
    right. split; [left; rewrite lookup_insert_ne by discriminate; apply routed_next |].
    split; [reflexivity |].
    eexists lv, rmsg, _, o. split; [right; left; reflexivity |].
    split; [exact Ho | left; exact Hm].
  - destruct (summarizer_node_responded llm (routed "summarizer" "summarization" state))
      as (lv & rmsg & o & Hm & Hne' & _ & _).
    assert (Ho : <["output" := o]> (routed "summarizer" "summarization" state)
                   !! "output" = Some o) by now simplify_map_eq.
    assert (Hs := start_summarizer llm _ _ _ _ _ _ Hr (routed_next _ _ _) Hm Ho Hne').
    eexists _, _. split; [exact (proj1 (invoke_of_start _ _ _ _ _ Hs)) |].
    right. split; [right; rewrite lookup_insert_ne by discriminate; apply routed_next |].
    split; [reflexivity |].
    eexists lv, rmsg, _, o. split; [right; left; reflexivity |].
    split; [exact Ho | right; exact Hm].
  - assert (Hp' : routed "fallback" "general" state !! "output" = Some preset)
      by now rewrite routed_output.
    assert (Hf := final_node_populated llm _ _ Hp' Hne).
    assert (Hs := start_fallback llm _ _ _ _ _ Hr (routed_next _ _ _) Hf).
    eexists _, _. split; [exact (proj1 (invoke_of_start _ _ _ _ _ Hs)) |].
    left. split; [apply routed_next |]. split; [reflexivity | exact Hp'].
Qed.

Lemma X6_witness :
  let state : dict := {["input" := "Hello"; "output" := "cached answer"]} in
  let llm : LLM := fun _ => inr "fresh answer" in
  state !! "output" = Some "cached answer" /\ "cached answer" <> "" /\
  exists evs final,
    LangGraph.invoke (_build_graph llm) state = (evs, inr final) /\
    ((final !! "next" = Some "fallback" /\
      invocations evs = 0 /\ final !! "output" = Some "cached answer") \/
     ((final !! "next" = Some "math" \/ final !! "next" = Some "summarizer") /\
      invocations evs = 1 /\
      exists lv msg prompt written,
        In (Invoke prompt) evs /\ final !! "output" = Some written /\
        (math_node llm (routed "math" "mathematical" state) =
           ([Invoke prompt; Log lv msg],
            inr (<["output" := written]> (routed "math" "mathematical" state))) \/
         summarizer_node llm (routed "summarizer" "summarization" state) =
           ([Invoke prompt; Log lv msg],
            inr (<["output" := written]>
                   (routed "summarizer" "summarization" state)))))).
Proof.
  intros state llm.
  assert (H1 : state !! "output" = Some "cached answer") by (vm_compute; reflexivity).
  assert (H2 : "cached answer" <> "") by discriminate.
  split; [exact H1 | split; [exact H2 |]].
  exact (X6_preset_output llm state _ H1 H2).
Defined.

Example preset_output_kept :
  outcome (LangGraph.invoke (_build_graph (fun _ => inr "fresh answer"))
             {["input" := "Hello"; "output" := "cached answer"]}) =
    inr (routed "fallback" "general"
           {["input" := "Hello"; "output" := "cached answer"]}).
Proof. vm_compute. reflexivity. Qed.

(** X7: whatever the backend does, the math node and the summarizer node
    return, call the backend exactly once, change no key other than
    "output", and replace whatever output the state held by a non-empty
    text. *)
Theorem X7_responders_write_output_only (llm : LLM) (state : dict) :
  (exists evs state' output,
     math_node llm state = (evs, inr state') /\
     invocations evs = 1 /\
     state' !! "output" = Some output /\ output <> "" /\
     forall k, k <> "output" -> state' !! k = state !! k) /\
  (exists evs state' output,
     summarizer_node llm state = (evs, inr state') /\
     invocations evs = 1 /\
     state' !! "output" = Some output /\ output <> "" /\
     forall k, k <> "output" -> state' !! k = state !! k).
Proof.
  split.
  - destruct (math_node_responded llm state) as (lv & msg & o & Hm & Hne & _ & _).
    eexists _, _, o. split; [exact Hm |]. split; [reflexivity |].
    split; [now simplify_map_eq |]. split; [exact Hne |].
    intros k Hk. now rewrite lookup_insert_ne by congruence.
  - destruct (summarizer_node_responded llm state) as (lv & msg & o & Hm & Hne & _ & _).
    eexists _, _, o. split; [exact Hm |]. split; [reflexivity |].
    split; [now simplify_map_eq |]. split; [exact Hne |].
    intros k Hk. now rewrite lookup_insert_ne by congruence.
Qed.

(** X8: the final node returns on every state, also one without an
    "output" key: the lookup of the output it prints never fails.  The
    state it returns has a non-empty output and every other key as
    received; the backend is called once when the received output was
    missing or empty and not at all otherwise; and run again on the state
    it returned, the final node prints the same block, calls no backend
    and returns that state. *)
Theorem X8_final_node_total_and_stable (llm : LLM) (state : dict) :
  exists evs state' output,
    final_node llm state = (evs, inr state') /\
    state' !! "output" = Some output /\ output <> "" /\
    (forall k, k <> "output" -> state' !! k = state !! k) /\
    invocations evs = (if truthy (state !! "output") then 0 else 1) /\
    final_node llm state' = (printed state' output, inr state').
Proof.
  destruct (final_node_any llm state) as (evs & s' & o & Hf & Ho & Hne & Hk & Hinv & _).
  exists evs, s', o.
  split; [exact Hf |]. split; [exact Ho |]. split; [exact Hne |].
  split; [exact Hk |]. split; [exact Hinv |].
  now apply final_node_populated.
Qed.

(** ** Replies *)

Section Replies.

Variable llm : LLM.

Lemma run_of_start (input : string) (evs : list event)
    (vs : list LangGraph.visit) (final : dict) :
  LangGraph.start (_build_graph llm) (initial_state input) = (evs, inr (vs, final)) ->
  run (agent_of llm) input = (started input :: evs ++ [completed], inr final).
Proof.
  intros H. apply run_returns. exact (proj1 (invoke_of_start _ _ _ _ _ H)).
Qed.

Lemma run_math_reply (input reply : string) :
  any_in math_patterns (lower input) = true ->
  llm (math_prompt input) = inr reply ->
  outcome (run (agent_of llm) input) =
    inr (<["output" := "[MATH] Math Solution:" +:+ nl +:+ reply]>
           (routed "math" "mathematical" (initial_state input))).
Proof.
  intros Hr Hl.
  assert (Hrouter := router_node_math (initial_state input) Hr).
  assert (Hm := math_node_reply llm (routed "math" "mathematical" (initial_state input))
                  reply).
  rewrite routed_get_input, get_initial_input in Hm. specialize (Hm Hl).
  erewrite run_of_start; [reflexivity |].
  eapply start_math; [exact Hrouter | apply routed_next | exact Hm
    | now simplify_map_eq | discriminate].
Qed.

Lemma run_summary_reply (input reply : string) :
  any_in math_patterns (lower input) = false ->
  any_in summary_keywords (lower input) = true ->
  llm (summary_prompt (text_to_summarize input)) = inr reply ->
  outcome (run (agent_of llm) input) =
    inr (<["output" := "[SUMMARY] Summary:" +:+ nl +:+ reply]>
           (routed "summarizer" "summarization" (initial_state input))).
Proof.
  intros Hr1 Hr2 Hl.
  assert (Hrouter := router_node_summarizer (initial_state input) Hr1 Hr2).
  assert (Hm := summarizer_node_reply llm
                  (routed "summarizer" "summarization" (initial_state input)) reply).
  rewrite routed_get_input, get_initial_input in Hm. specialize (Hm Hl).
  erewrite run_of_start; [reflexivity |].
  eapply start_summarizer; [exact Hrouter | apply routed_next | exact Hm
    | now simplify_map_eq | discriminate].
Qed.

Lemma run_general_reply (input reply : string) :
  any_in math_patterns (lower input) = false ->
  any_in summary_keywords (lower input) = false ->
  llm (general_prompt input) = inr reply ->
  outcome (run (agent_of llm) input) =
    inr (<["output" := "[GENERAL] General Response:" +:+ nl +:+ reply]>
           (routed "fallback" "general" (initial_state input))).
Proof.
  intros Hr1 Hr2 Hl.
  assert (Hrouter := router_node_fallback (initial_state input) Hr1 Hr2).
  assert (Hempty : truthy (routed "fallback" "general" (initial_state input) !! "output")
                   = false) by (rewrite routed_output; reflexivity).
  destruct (final_node_empty llm _ Hempty) as (lv & msg & o & Hf & Hfb & _).
  rewrite routed_get_input, get_initial_input in Hf, Hfb.
  assert (Hfb' := fallback_reply llm (routed "fallback" "general" (initial_state input))
                    reply).
  rewrite routed_get_input, get_initial_input in Hfb'. specialize (Hfb' Hl).
  rewrite Hfb' in Hfb.
  assert (Hmap := f_equal
            (fun m : M dict =>
               match m.2 with inr d => d !! "output" | inl _ => None end) Hfb).
  cbn beta iota in Hmap. cbn [snd] in Hmap.
  rewrite !lookup_insert_eq in Hmap.
  assert (Ho : "[GENERAL] General Response:" +:+ nl +:+ reply = o) by congruence.
  erewrite run_of_start; [| eapply start_fallback;
    [exact Hrouter | apply routed_next | exact Hf]].
  unfold outcome. cbn [snd]. now rewrite <- Ho.
Qed.

End Replies.

(** X9: when the backend replies, the request returns the reply under the
    tag of its route: "[MATH] Math Solution:", "[SUMMARY] Summary:" or
    "[GENERAL] General Response:", a line break, then the reply as it
    came; the summarizer is asked about the input without its prefix. *)
Theorem X9_reply_is_returned_under_its_tag (llm : LLM) (input reply : string) :
  (any_in math_patterns (lower input) = true ->
   llm (math_prompt input) = inr reply ->
   outcome (run (agent_of llm) input) =
     inr (<["output" := "[MATH] Math Solution:" +:+ nl +:+ reply]>
            (routed "math" "mathematical" (initial_state input)))) /\
  (any_in math_patterns (lower input) = false ->
   any_in summary_keywords (lower input) = true ->
   llm (summary_prompt (text_to_summarize input)) = inr reply ->
   outcome (run (agent_of llm) input) =
     inr (<["output" := "[SUMMARY] Summary:" +:+ nl +:+ reply]>
            (routed "summarizer" "summarization" (initial_state input)))) /\
  (any_in math_patterns (lower input) = false ->
   any_in summary_keywords (lower input) = false ->
   llm (general_prompt input) = inr reply ->
   outcome (run (agent_of llm) input) =
     inr (<["output" := "[GENERAL] General Response:" +:+ nl +:+ reply]>
            (routed "fallback" "general" (initial_state input)))).
Proof.
  split; [apply run_math_reply |].
  split; [apply run_summary_reply | apply run_general_reply].
Qed.

Lemma X9_witness :
  let llm : LLM := fun _ => inr "about 4.5 billion years ago" in
  (outcome (run (agent_of llm) "What is 15 + 25 * 3?") =
     inr (<["output" := "[MATH] Math Solution:" +:+ nl +:+ "about 4.5 billion years ago"]>
            (routed "math" "mathematical" (initial_state "What is 15 + 25 * 3?")))) /\
  (outcome (run (agent_of llm) "Summarize: how is earth formed?") =
     inr (<["output" := "[SUMMARY] Summary:" +:+ nl +:+ "about 4.5 billion years ago"]>
            (routed "summarizer" "summarization"
               (initial_state "Summarize: how is earth formed?")))) /\
  (outcome (run (agent_of llm) "Hello, how are you doing today?") =
     inr (<["output" := "[GENERAL] General Response:" +:+ nl +:+
                        "about 4.5 billion years ago"]>
            (routed "fallback" "general"
               (initial_state "Hello, how are you doing today?")))).
Proof.
  intros llm.
  split; [| split].
  - apply (proj1 (X9_reply_is_returned_under_its_tag llm _ _)); reflexivity.
  - apply (proj1 (proj2 (X9_reply_is_returned_under_its_tag llm _ _))); reflexivity.
  - apply (proj2 (proj2 (X9_reply_is_returned_under_its_tag llm _ _))); reflexivity.
Defined.

(** X10: on the built graph a request returns a state with exactly the
    four keys "input", "output", "next" and "processing_type"; the input is
    the text of the request, and route and type are one of the pairs
    math/mathematical, summarizer/summarization, fallback/general, so a
    caller's [result.get('next', 'Unknown')] never falls back to its
    default. *)
Theorem X10_result_keys (llm : LLM) (input : string) :
  exists evs result,
    run (agent_of llm) input = (evs, inr result) /\
    dom result = ({["input"; "output"; "next"; "processing_type"]} : gset string) /\
    result !! "input" = Some input /\
    ((result !! "next" = Some "math" /\
      result !! "processing_type" = Some "mathematical") \/
     (result !! "next" = Some "summarizer" /\
      result !! "processing_type" = Some "summarization") \/
     (result !! "next" = Some "fallback" /\
      result !! "processing_type" = Some "general")).
Proof.
  destruct (start_cases llm input)
    as (n & t & msg & tag & prompt & lv & rmsg & o & middle &
        _ & Hs & _ & _ & _ & Hcase).
  eexists _, _. split; [exact (run_of_start llm _ _ _ _ Hs) |].
  split.
  { unfold routed, initial_state. rewrite !dom_insert_L, dom_empty_L. set_solver. }
  split.
  { rewrite lookup_insert_ne by discriminate. now rewrite routed_input. }
  rewrite !(lookup_insert_ne _ "output") by discriminate.
  rewrite routed_next, routed_processing_type.
  destruct Hcase as [(-> & -> & _) | [(-> & -> & _) | (-> & -> & _)]]; auto 6.
Qed.

(** ** The console loop *)

Section Console.



Lemma backend_calls_app (a b : list io) :
  backend_calls (a ++ b) = backend_calls a + backend_calls b.
Proof. unfold backend_calls. now rewrite List.filter_app, length_app. Qed.

Lemma backend_calls_outs (evs : list event) :
  backend_calls (outs evs) = invocations evs.
Proof.
  unfold backend_calls, invocations, outs.
  induction evs as [|ev evs IH]; [reflexivity |].
  destruct ev; cbn [map List.filter is_backend_call is_invoke length];
    now rewrite ?IH.
Qed.

Lemma query_returns (agent : MistralAgent) (user_input : string)
    (evs : list event) (result : dict) :
  run agent user_input = (evs, inr result) ->
  query agent user_input = evs.
Proof.
  intros H. unfold query. run_M. rewrite H. cbn [fst snd events].
  now rewrite app_nil_r.
Qed.

(** A request on the built graph returns after one call of the backend. *)
Lemma run_total (llm : LLM) (input : string) :
  exists evs result,
    run (agent_of llm) input = (evs, inr result) /\ invocations evs = 1.
Proof.
  destruct (run_cases llm input)
    as (n & t & msg & tag & prompt & lv & rmsg & o & middle & _ & Hrun & _).
  eexists _, _. split; [exact Hrun | apply invocations_run].
Qed.





End Console.



(** X12: with the built agent the loop calls the backend once for every
    line, read before the loop ends, that is neither blank nor a quit
    word, and for nothing else. *)
Theorem X12_one_backend_call_per_query (llm : LLM) (stdin : list read) :
  backend_calls (interactive (agent_of llm) stdin).1 =
    length (List.filter asks_agent (before_leaving stdin)).
Proof.
  induction stdin as [|got stdin IH]; [reflexivity |].
  destruct got as [text | |]; cbn [interactive before_leaving leaves].
  - destruct (str_elem (lower (strip text)) quit_words) eqn:Eq; [reflexivity |].
    cbn [List.filter asks_agent]. rewrite Eq. cbn [negb andb].
    destruct (str_truthy (strip text)) eqn:Et; cbn [negb fst].
    + destruct (run_total llm (strip text)) as (evs & result & Hrun & Hinv).
      rewrite (query_returns _ _ _ _ Hrun).
      change (ask :: outs evs ++ (interactive (agent_of llm) stdin).1)
        with ([ask] ++ outs evs ++ (interactive (agent_of llm) stdin).1).
      rewrite !backend_calls_app, backend_calls_outs, Hinv, IH. reflexivity.
    + exact IH.
  - reflexivity.
  - cbn [List.filter asks_agent fst]. exact IH.
Qed.



(** X14: at the end of the input the loop does not stop: every read that
    meets the end of the input prints the error of [input] and the loop
    asks again, without a call of the backend. *)
Theorem X14_end_of_input_keeps_the_loop (agent : MistralAgent) (n : nat)
    (stdin : list read) :
  interactive agent (repeat Eof n ++ stdin) =
    (concat (repeat [ask; Out (Print "Error: EOF when reading a line")] n) ++
       (interactive agent stdin).1,
     (interactive agent stdin).2).
Proof.
  induction n as [|n IH].
  - cbn [repeat concat List.app]. now destruct (interactive agent stdin).
  - cbn [repeat concat List.app interactive]. now rewrite IH.
Qed.

(** ** [main] *)

Section Main.

Lemma invocations_print (line : string) (evs : list event) :
  invocations (Print line :: evs) = invocations evs.
Proof. reflexivity. Qed.

Lemma invocations_log (lv : level) (msg : string) (evs : list event) :
  invocations (Log lv msg :: evs) = invocations evs.
Proof. reflexivity. Qed.







End Main.

(** X15: when the construction of the backend raises, [__init__] logs the
    failure and raises the same exception, and [main] prints the failure
    and returns at once: no test case is run, the backend is never
    called and nothing is read from the console. *)
Theorem X15_failed_construction_stops_main (e : Exception) (stdin : list read) :
  __init__ "mistral" (inl e) =
    ([Log ERROR ("Failed to initialize model: " +:+ str e)], inl e) /\
  main (inl e) stdin =
    ([Out (Print "LangGraph + Mistral Non-Linear Agent");
      Out (Print rule);
      Out (Log ERROR ("Failed to initialize model: " +:+ str e));
      Out (Print ("Failed to initialize agent: " +:+ str e))],
     Returned).
Proof. split; reflexivity. Qed.


(** X17: the routing test of test_agent.py agrees with the router: with a
    working backend each of its ten cases prints the pass mark, none the
    fail mark, and the test returns True; when the construction of the
    backend raises, no case is run and the test returns False. *)
Theorem X17_routing_test_passes :
  (forall llm : LLM,
     outcome (test_agent.test_routing_logic (inr llm)) = inr true /\
     printed_times ("Status: " +:+ test_agent.pass_mark)
       (events (test_agent.test_routing_logic (inr llm))) = 10 /\
     printed_times ("Status: " +:+ test_agent.fail_mark)
       (events (test_agent.test_routing_logic (inr llm))) = 0) /\
  (forall e : Exception,
     outcome (test_agent.test_routing_logic (inl e)) = inr false /\
     printed_times ("Status: " +:+ test_agent.pass_mark)
       (events (test_agent.test_routing_logic (inl e))) = 0 /\
     printed_times ("Status: " +:+ test_agent.fail_mark)
       (events (test_agent.test_routing_logic (inl e))) = 0 /\
     In (Print ("❌ Error during routing test: " +:+ str e))
       (events (test_agent.test_routing_logic (inl e)))).
Proof.
  split.
  - intros llm. split; [| split]; vm_compute; reflexivity.
  - intros e. split; [reflexivity |]. split; [reflexivity |].
    split; [reflexivity |]. cbn. auto 10.
Qed.
